(** * FlaskFullApp: the movie-rating application of [app.py]

    A shallow embedding of the route handlers and of the start-up seeding
    block of [app.py], and the properties of its session and authorization
    model.

    The handlers run in a state-and-exception monad over a [World]: the
    client's session (a string-keyed dictionary), the database tables, the
    SQLAlchemy unit of work (objects staged by [db.session.add] until
    [db.session.commit]), the queue of flashed messages, the server clock,
    the standard output and the number of salts drawn so far.

    Flask's [flash] is kept as a queue of its own, apart from the [session]
    dictionary the handlers read and write with [session[...]], [session.get]
    and [session.pop].  So is the token Flask-WTF keeps under
    [session['csrf_token']] when a form is built: [session] here stands for
    the entries [app.py] itself reads and writes, [user] and [role], and the
    verdict of a form's validation, the check of the posted token included,
    is taken from the validators as the request brings it.  Statements about
    the session of a handler that builds a form speak of these two entries. *)

From stdpp Require Import base decidable option strings pretty gmap list sorting.
From Stdlib Require Import NArith ZArith Ascii.

Local Open Scope string_scope.
Local Open Scope N_scope.

(** ** Data model *)

(** Modelled from the spec: [models.py] is not among the sources.  The spec's
    data model gives a User a unique [username], a hashed [password] and a
    [role]; [app.py] builds users with exactly these three keyword
    arguments. *)
Module User.
Record t := mk { username : string; password : string; role : string }.
End User.

(** Modelled from the spec: a Movie has an auto-assigned unique [id], a
    [title] and a [description]. *)
Module Movie.
Record t := mk { id : N; title : string; description : string }.
End Movie.

(** Modelled from the spec: a Rating has an auto-assigned [id], the four
    fields [app.py] passes to its constructor, and [created_at], a timestamp
    set when the row is created. *)
Module Rating.
Record t := mk {
  id : N; name : string; movie : string; stars : Z; remarks : string;
  created_at : Z }.
End Rating.

(** The forms of [forms.py], as the objects the handlers read: the [data] of
    each field after the form has bound the request. *)
Module LoginForm.
Record t := mk { username : string; password : string }.
End LoginForm.

Module RateForm.
Record t := mk { name : string; movieList : string; stars : Z; remarks : string }.
End RateForm.

Module MovieForm.
Record t := mk { title : string; description : string }.
End MovieForm.

Inductive Method := GET | POST.

Global Instance Method_eq_dec : EqDecision Method.
Proof. solve_decision. Defined.
Global Instance User_eq_dec : EqDecision User.t.
Proof. solve_decision. Defined.
Global Instance Movie_eq_dec : EqDecision Movie.t.
Proof. solve_decision. Defined.
Global Instance Rating_eq_dec : EqDecision Rating.t.
Proof. solve_decision. Defined.

(** The three tables.  [None] for the database as a whole (below) is a store
    whose schema has not been created yet. *)
Record Tables := mkTables {
  users : list User.t;
  movies : list Movie.t;
  ratings : list Rating.t }.

Definition empty_tables : Tables := mkTables [] [] [].

(** What the unit of work holds between [db.session.add], an attribute
    assignment or [db.session.delete], and the next [db.session.commit].  A
    new Movie or Rating has no [id] (and a Rating no [created_at]) before it
    is flushed. *)
Inductive Pending :=
| AddUser (u : User.t)
| AddMovie (title description : string)
| AddRating (name movie : string) (stars : Z) (remarks : string)
| UpdateMovie (id : N) (title description : string)
| DeleteMovie (id : N).

Record World := mkWorld {
  session : gmap string string;
  db : option Tables;
  pending : list Pending;
  flashes : list (string * string);
  clock : Z;
  stdout : list string;
  salts_drawn : nat }.

Definition with_session (s : gmap string string) (w : World) : World :=
  mkWorld s (db w) (pending w) (flashes w) (clock w) (stdout w) (salts_drawn w).
Definition with_db (d : option Tables) (w : World) : World :=
  mkWorld (session w) d (pending w) (flashes w) (clock w) (stdout w) (salts_drawn w).
Definition with_pending (p : list Pending) (w : World) : World :=
  mkWorld (session w) (db w) p (flashes w) (clock w) (stdout w) (salts_drawn w).
Definition with_flashes (f : list (string * string)) (w : World) : World :=
  mkWorld (session w) (db w) (pending w) f (clock w) (stdout w) (salts_drawn w).
Definition with_stdout (o : list string) (w : World) : World :=
  mkWorld (session w) (db w) (pending w) (flashes w) (clock w) o (salts_drawn w).
Definition with_salts_drawn (n : nat) (w : World) : World :=
  mkWorld (session w) (db w) (pending w) (flashes w) (clock w) (stdout w) n.

(** ** The collaborators outside [app.py]

    werkzeug's password hashing (the salt it draws is the [nat] argument of
    [generate_password_hash]) and the validators of the three forms of
    [forms.py].  The choices of the rating form's movie list are set by the
    handler, so its validator takes them. *)
Class Collaborators := {
  generate_password_hash : nat → string → string;
  check_password_hash : string → string → bool;
  LoginForm_validate : LoginForm.t → bool;
  RateForm_validate : list (string * string) → RateForm.t → bool;
  MovieForm_validate : MovieForm.t → bool }.

(** ** The handler monad: state and exceptions *)

Inductive Exn :=
| NotFound | IntegrityError | OperationalError | KeyError | OverflowError.

Inductive Outcome (A : Type) :=
| Return (a : A)
| Raise (e : Exn).
Arguments Return {A} a.
Arguments Raise {A} e.

Definition M (A : Type) : Type := World → Outcome A * World.

Global Instance M_ret : MRet M := λ A a w, (Return a, w).
Global Instance M_bind : MBind M := λ A B f m w,
  match m w with
  | (Return a, w') => f a w'
  | (Raise e, w') => (Raise e, w')
  end.

Definition raise {A} (e : Exn) : M A := λ w, (Raise e, w).
Definition gets {A} (f : World → A) : M A := λ w, (Return (f w), w).
Definition modify (f : World → World) : M unit := λ w, (Return (), f w).

(** ** Flask: session, flash, responses *)

Definition session_get (key : string) : M (option string) :=
  gets (λ w, session w !! key).

(** [session[key]] raises [KeyError] on a missing key. *)
Definition session_getitem (key : string) : M string :=
  v ← session_get key;
  match v with Some v => mret v | None => raise KeyError end.

Definition session_setitem (key value : string) : M unit :=
  modify (λ w, with_session (<[key := value]> (session w)) w).

(** [session.pop(key, None)]. *)
Definition session_pop (key : string) : M (option string) :=
  v ← session_get key;
  modify (λ w, with_session (delete key (session w)) w);;
  mret v.

Definition flash (message category : string) : M unit :=
  modify (λ w, with_flashes (flashes w ++ [(message, category)]) w).

Definition print (line : string) : M unit :=
  modify (λ w, with_stdout (stdout w ++ [line]) w).

(** The view functions, named as in the [@app.route] decorators. *)
Inductive Endpoint :=
| index_ep | login_ep | logout_ep | rate_ep | manage_movies_ep
| add_movie_ep | view_ep.

Definition url_for (e : Endpoint) : string :=
  match e with
  | index_ep => "/"
  | login_ep => "/login"
  | logout_ep => "/logout"
  | rate_ep => "/rate"
  | manage_movies_ep => "/manage"
  | add_movie_ep => "/add_movie"
  | view_ep => "/view"
  end.

(** The values handed to the templates. *)
Inductive Value :=
| VStr (s : string)
| VMovies (l : list Movie.t)
| VRatings (l : list Rating.t)
| VLoginForm (f : LoginForm.t)
| VRateForm (f : RateForm.t) (choices : list (string * string))
| VMovieForm (f : MovieForm.t).

Inductive Response :=
| render_template (template : string) (context : list (string * Value))
| redirect (location : string).

(** ** The persistence layer *)

Definition db_tables : M Tables := λ w,
  match db w with
  | Some t => (Return t, w)
  | None => (Raise OperationalError, w)
  end.

(** [db.create_all()]: creates the tables that do not exist. *)
Definition db_create_all : M unit :=
  modify (λ w, match db w with
               | Some _ => w
               | None => with_db (Some empty_tables) w
               end).

(** [User.query.filter_by(username=...).first()]. *)
Definition find_user (username : string) (l : list User.t) : option User.t :=
  head (filter (λ u, User.username u = username) l).

Definition User_query_filter_by_username_first (username : string)
  : M (option User.t) :=
  t ← db_tables; mret (find_user username (users t)).

Definition Movie_query_all : M (list Movie.t) :=
  t ← db_tables; mret (movies t).

Definition find_movie (id : N) (l : list Movie.t) : option Movie.t :=
  head (filter (λ m, Movie.id m = id) l).

(** The ids SQLite can hold and bind to a query: 64-bit signed integers. *)
Definition max_id : N := 2 ^ 63 - 1.

(** [Movie.query.get_or_404(id)].  An id beyond [max_id] cannot be bound to
    the query, which raises [OverflowError] instead of finding nothing; no
    row of a SQLite table has such an id, so the overflow shows where the
    lookup is empty. *)
Definition Movie_query_get_or_404 (id : N) : M Movie.t :=
  t ← db_tables;
  match find_movie id (movies t) with
  | Some m => mret m
  | None => if bool_decide (id ≤ max_id) then raise NotFound
            else raise OverflowError
  end.

Definition Rating_query_all : M (list Rating.t) :=
  t ← db_tables; mret (ratings t).

(** The order of [Rating.created_at.desc()]: later rows first. *)
Definition created_desc (a b : Rating.t) : Prop :=
  (Rating.created_at b ≤ Rating.created_at a)%Z.

Global Instance created_desc_dec a b : Decision (created_desc a b).
Proof. unfold created_desc. apply _. Defined.

Global Instance created_desc_total : Total created_desc.
Proof. intros a b. unfold created_desc. lia. Qed.

Global Instance created_desc_trans : Transitive created_desc.
Proof. intros a b c. unfold created_desc. lia. Qed.

(** Sorting by [created_at], latest first; rows of the same time keep the
    order of the table. *)
Fixpoint insert_by_created (r : Rating.t) (l : list Rating.t) : list Rating.t :=
  match l with
  | [] => [r]
  | x :: l' =>
      if decide (created_desc x r) then x :: insert_by_created r l'
      else r :: x :: l'
  end.

Definition sort_created_desc (l : list Rating.t) : list Rating.t :=
  foldl (λ sorted r, insert_by_created r sorted) [] l.

(** [Rating.query.order_by(Rating.created_at.desc()).all()]. *)
Definition Rating_query_order_by_created_at_desc_all : M (list Rating.t) :=
  t ← db_tables; mret (sort_created_desc (ratings t)).

(** Modelled from the spec: ids are auto-assigned and unique.  A new row
    takes one more than the greatest id of its table. *)
Definition fresh_id (ids : list N) : N := N.succ (foldr N.max 0 ids).

(** One staged change against the tables, at the time [now].  Modelled from
    the spec: [username] is unique, so a second user of the same name is
    refused. *)
Definition flush_one (now : Z) (t : Tables) (p : Pending) : option Tables :=
  match p with
  | AddUser u =>
      if bool_decide (User.username u ∈ User.username <$> users t)
      then None
      else Some (mkTables (users t ++ [u]) (movies t) (ratings t))
  | AddMovie ti de =>
      Some (mkTables (users t)
              (movies t ++ [Movie.mk (fresh_id (Movie.id <$> movies t)) ti de])
              (ratings t))
  | AddRating na mo st re =>
      Some (mkTables (users t) (movies t)
              (ratings t ++
                 [Rating.mk (fresh_id (Rating.id <$> ratings t)) na mo st re now]))
  | UpdateMovie i ti de =>
      Some (mkTables (users t)
              ((λ m, if bool_decide (Movie.id m = i) then Movie.mk i ti de else m)
                 <$> movies t)
              (ratings t))
  | DeleteMovie i =>
      Some (mkTables (users t)
              (filter (λ m, Movie.id m ≠ i) (movies t))
              (ratings t))
  end.

Fixpoint flush (now : Z) (t : Tables) (ps : list Pending) : option Tables :=
  match ps with
  | [] => Some t
  | p :: ps => t' ← flush_one now t p; flush now t' ps
  end.

Definition db_session_add (p : Pending) : M unit :=
  modify (λ w, with_pending (pending w ++ [p]) w).

Definition db_session_add_all (ps : list Pending) : M unit :=
  modify (λ w, with_pending (pending w ++ ps) w).

(** [db.session.delete(movie)]. *)
Definition db_session_delete (m : Movie.t) : M unit :=
  db_session_add (DeleteMovie (Movie.id m)).

(** [db.session.commit()]: every staged change reaches the tables, or none
    does and the commit raises. *)
Definition db_session_commit : M unit :=
  t ← db_tables;
  ps ← gets pending;
  now ← gets clock;
  modify (with_pending []);;
  match flush now t ps with
  | Some t' => modify (with_db (Some t'))
  | None => raise IntegrityError
  end.

(** ** [app.py] *)

Section App.
Context `{Collaborators}.

(** [generate_password_hash(password)]: a fresh salt for every call. *)
Definition generate_password_hash_salted (plaintext : string) : M string :=
  n ← gets salts_drawn;
  modify (with_salts_drawn (S n));;
  mret (generate_password_hash n plaintext).

(** [form.validate_on_submit()]: the request is a submission and the form's
    validators, the check of the posted CSRF token among them, accept it. *)
Definition validate_on_submit (method : Method) (valid : bool) : bool :=
  match method with
  | POST => valid
  | GET => false
  end.

(** A handler body that may [return] before its last statement gives
    [Some response] where it returns and [None] where it falls through. *)
Definition or_else (early : option Response) (last : M Response) : M Response :=
  match early with
  | Some r => mret r
  | None => last
  end.

(** The seeding block that runs when the module is loaded. *)
Definition bootstrap : M unit :=
  db_create_all;;
  existing ← User_query_filter_by_username_first "admin";
  match existing with
  | None =>
      print "Creating default admin account...";;
      admin_hash ← generate_password_hash_salted "admin123";
      let admin := User.mk "admin" admin_hash "admin" in
      viewer_hash ← generate_password_hash_salted "viewer123";
      let viewer := User.mk "viewer" viewer_hash "viewer" in
      db_session_add_all [AddUser admin; AddUser viewer];;
      db_session_commit;;
      print "Default accounts created."
  | Some _ => mret ()
  end.

(** The block under [if __name__ == '__main__'], before [app.run]: the same
    seeding once more, without the messages. *)
Definition main_block : M unit :=
  db_create_all;;
  existing ← User_query_filter_by_username_first "admin";
  match existing with
  | None =>
      admin_hash ← generate_password_hash_salted "admin123";
      let admin := User.mk "admin" admin_hash "admin" in
      viewer_hash ← generate_password_hash_salted "viewer123";
      let viewer := User.mk "viewer" viewer_hash "viewer" in
      db_session_add_all [AddUser admin; AddUser viewer];;
      db_session_commit
  | Some _ => mret ()
  end.

Definition index : M Response :=
  movies ← Movie_query_all;
  mret (render_template "index.html"
          [("title", VStr "Home"); ("movies", VMovies movies)]).

Definition login (method : Method) (form : LoginForm.t) : M Response :=
  early ←
    (if validate_on_submit method (LoginForm_validate form) then
       user ← User_query_filter_by_username_first (LoginForm.username form);
       match user with
       | Some user =>
           if check_password_hash (User.password user) (LoginForm.password form)
           then
             session_setitem "user" (User.username user);;
             session_setitem "role" (User.role user);;
             flash "Login successful!" "success";;
             role ← session_getitem "role";
             if bool_decide (role = "viewer") then
               mret (Some (redirect (url_for view_ep)))
             else if bool_decide (role = "admin") then
               mret (Some (redirect (url_for manage_movies_ep)))
             else mret None
           else
             flash "Invalid credentials" "danger";; mret None
       | None =>
           flash "Invalid credentials" "danger";; mret None
       end
     else mret None);
  or_else early
    (mret (render_template "login.html"
             [("form", VLoginForm form); ("title", VStr "Login")])).

Definition logout : M Response :=
  session_pop "user";;
  session_pop "role";;
  flash "You have been logged out." "info";;
  mret (redirect (url_for index_ep)).

Definition rate (method : Method) (form : RateForm.t) : M Response :=
  movies ← Movie_query_all;
  let choices := (λ m, (Movie.title m, Movie.title m)) <$> movies in
  if validate_on_submit method (RateForm_validate choices form) then
    db_session_add
      (AddRating (RateForm.name form) (RateForm.movieList form)
         (RateForm.stars form) (RateForm.remarks form));;
    db_session_commit;;
    flash "Rating submitted successfully!" "success";;
    mret (redirect (url_for rate_ep))
  else
    ratings ← Rating_query_order_by_created_at_desc_all;
    mret (render_template "rate.html"
            [("form", VRateForm form choices); ("ratings", VRatings ratings)]).

Definition manage_movies : M Response :=
  role ← session_get "role";
  if bool_decide (role ≠ Some "admin") then
    flash "Access denied." "danger";;
    mret (redirect (url_for index_ep))
  else
    movies ← Movie_query_all;
    mret (render_template "manage_movies.html" [("movies", VMovies movies)]).

Definition add_movie (method : Method) (form : MovieForm.t) : M Response :=
  role ← session_get "role";
  if bool_decide (role ≠ Some "admin") then
    flash "Access denied." "danger";;
    mret (redirect (url_for index_ep))
  else
    if validate_on_submit method (MovieForm_validate form) then
      db_session_add (AddMovie (MovieForm.title form) (MovieForm.description form));;
      db_session_commit;;
      flash "Movie added successfully!" "success";;
      mret (redirect (url_for manage_movies_ep))
    else
      mret (render_template "add_movie.html" [("form", VMovieForm form)]).

(** [MovieForm(obj=movie)]: bound to the submitted data on a submission,
    filled from the movie otherwise. *)
Definition MovieForm_obj (method : Method) (formdata : MovieForm.t)
    (movie : Movie.t) : MovieForm.t :=
  match method with
  | POST => formdata
  | GET => MovieForm.mk (Movie.title movie) (Movie.description movie)
  end.

Definition edit_movie (id : N) (method : Method) (formdata : MovieForm.t)
  : M Response :=
  role ← session_get "role";
  if bool_decide (role ≠ Some "admin") then
    flash "Access denied." "danger";;
    mret (redirect (url_for index_ep))
  else
    movie ← Movie_query_get_or_404 id;
    let form := MovieForm_obj method formdata movie in
    if validate_on_submit method (MovieForm_validate form) then
      (* movie.title = ...; movie.description = ...: the row is staged as
         changed *)
      db_session_add
        (UpdateMovie (Movie.id movie) (MovieForm.title form)
           (MovieForm.description form));;
      db_session_commit;;
      flash "Movie updated!" "success";;
      mret (redirect (url_for manage_movies_ep))
    else
      mret (render_template "edit.html" [("form", VMovieForm form)]).

Definition delete_movie (id : N) : M Response :=
  role ← session_get "role";
  if bool_decide (role ≠ Some "admin") then
    flash "Access denied." "danger";;
    mret (redirect (url_for index_ep))
  else
    movie ← Movie_query_get_or_404 id;
    db_session_delete movie;;
    db_session_commit;;
    flash "Movie deleted!" "info";;
    mret (redirect (url_for manage_movies_ep)).

Definition view : M Response :=
  role ← session_get "role";
  if bool_decide (role ≠ Some "viewer") then
    flash "Access denied." "danger";;
    mret (redirect (url_for index_ep))
  else
    ratings ← Rating_query_all;
    mret (render_template "view.html" [("ratings", VRatings ratings)]).

(** ** Routing: the [@app.route] table *)

Inductive Request :=
| get_index                                              (* GET /            *)
| req_login (method : Method) (form : LoginForm.t)       (* GET, POST /login *)
| get_logout                                             (* GET /logout      *)
| req_rate (method : Method) (form : RateForm.t)         (* GET, POST /rate  *)
| get_manage                                             (* GET /manage      *)
| req_add_movie (method : Method) (form : MovieForm.t)   (* /add_movie       *)
| req_edit_movie (id : N) (method : Method) (form : MovieForm.t)
| get_delete_movie (id : N)                              (* /delete_movie/id *)
| get_view.                                              (* GET /view        *)

Definition handle (r : Request) : M Response :=
  match r with
  | get_index => index
  | req_login method form => login method form
  | get_logout => logout
  | req_rate method form => rate method form
  | get_manage => manage_movies
  | req_add_movie method form => add_movie method form
  | req_edit_movie id method form => edit_movie id method form
  | get_delete_movie id => delete_movie id
  | get_view => view
  end.

(** The role each handler's guard compares [session.get('role')] with;
    [None] for the handlers that have no guard. *)
Definition required_role (r : Request) : option string :=
  match r with
  | get_manage | req_add_movie _ _ | req_edit_movie _ _ _ | get_delete_movie _ =>
      Some "admin"
  | get_view => Some "viewer"
  | get_index | req_login _ _ | get_logout | req_rate _ _ => None
  end.

(** The outcome of a denied request: the warning is flashed, the client is
    sent home, and nothing else in the world moves. *)
Definition access_denied (w : World) : Outcome Response * World :=
  (Return (redirect (url_for index_ep)),
   with_flashes (flashes w ++ [("Access denied.", "danger")]) w).

(** The login page, the session after a login of [u], and where a
    successful login of a user with role [role] ends: names for the three
    things [login] computes, used to state what it does. *)
Definition login_page (form : LoginForm.t) : Response :=
  render_template "login.html" [("form", VLoginForm form); ("title", VStr "Login")].

Definition logged_in (u : User.t) (s : gmap string string) : gmap string string :=
  <["role" := User.role u]> (<["user" := User.username u]> s).

Definition login_target (role : string) (form : LoginForm.t) : Response :=
  if bool_decide (role = "viewer") then redirect (url_for view_ep)
  else if bool_decide (role = "admin") then redirect (url_for manage_movies_ep)
  else login_page form.

End App.

(** ** Stores the application can be in

    The constraints of the schema (unique user names, ids as primary keys),
    with the schema created and nothing left staged between two requests. *)
Definition wf_tables (t : Tables) : Prop :=
  NoDup (User.username <$> users t) ∧
  NoDup (Movie.id <$> movies t) ∧
  NoDup (Rating.id <$> ratings t).

Definition ready (t : Tables) (w : World) : Prop :=
  db w = Some t ∧ pending w = [] ∧ wf_tables t.

(** The tables of a store; none while the schema is missing. *)
Definition tables_of (w : World) : Tables := default empty_tables (db w).

(** A world before the first start: no schema, an empty session. *)
Definition blank_world : World := mkWorld ∅ None [] [] 0 [] 0.

(** ** A test double of the collaborators, for the concrete runs *)

Fixpoint after_dollar (s : string) : string :=
  match s with
  | EmptyString => EmptyString
  | String c s' => if bool_decide (c = "$"%char) then s' else after_dollar s'
  end.

Definition demo_hash (salt : nat) (plaintext : string) : string :=
  pretty salt +:+ "$" +:+ plaintext.

Definition demo_check (digest plaintext : string) : bool :=
  bool_decide (after_dollar digest = plaintext).

Definition demo : Collaborators := {|
  generate_password_hash := demo_hash;
  check_password_hash := demo_check;
  LoginForm_validate f :=
    bool_decide (LoginForm.username f ≠ "" ∧ LoginForm.password f ≠ "");
  RateForm_validate choices f :=
    bool_decide (RateForm.name f ≠ "" ∧
                 RateForm.movieList f ∈ choices.*1 ∧
                 (1 ≤ RateForm.stars f ≤ 5)%Z);
  MovieForm_validate f := bool_decide (MovieForm.title f ≠ "")
|}.

(** The world after the first start of the application under [demo]. *)
Definition seeded_world : World := (@bootstrap demo blank_world).2.

Definition seeded_tables : Tables := tables_of seeded_world.

Definition admin_session : gmap string string :=
  <["role" := "admin"]> (<["user" := "admin"]> ∅).
Definition viewer_session : gmap string string :=
  <["role" := "viewer"]> (<["user" := "viewer"]> ∅).

Definition two_movies : Tables :=
  mkTables (users seeded_tables)
    [Movie.mk 1 "Inception" "Dreams"; Movie.mk 2 "Heat" "Heist"]
    [Rating.mk 1 "ann" "Heat" 4 "good" 10; Rating.mk 2 "bob" "Inception" 5 "great" 30;
     Rating.mk 3 "cy" "Heat" 2 "long" 20].

Definition stocked_world (s : gmap string string) : World :=
  mkWorld s (Some two_movies) [] [] 40 [] 2.

(** A store that holds the viewer account but no admin account. *)
Definition viewer_only_world : World :=
  mkWorld ∅ (Some (mkTables [User.mk "viewer" (demo_hash 0 "viewer123") "viewer"] [] []))
    [] [] 0 [] 0.

(** A store with a third account whose role is neither of the two the
    routes know. *)
Definition guest_tables : Tables :=
  mkTables (users seeded_tables ++ [User.mk "guest" (demo_hash 2 "guest123") "guest"])
    [] [].

Definition guest_world : World := mkWorld ∅ (Some guest_tables) [] [] 50 [] 3.


(** ** Stores the application produces

    The unit of work lives in the application context: Flask-SQLAlchemy
    removes it when the context ends, after a request and after a start-up
    block. *)
Definition leave_context (w : World) : World := with_pending [] w.

Section Produced.
Context `{Collaborators}.

(** The worlds the application itself gets to: it starts on a store that
    holds no user yet, and from there runs the start-up block, the block
    under [__main__] and requests, in any order and number, while clients
    and time change the session, the flashed messages and the clock. *)
Inductive produced : World → Prop :=
| produced_new (w : World) :
    users (tables_of w) = [] → pending w = [] → produced w
| produced_bootstrap (w : World) :
    produced w → produced (leave_context (bootstrap w).2)
| produced_main (w : World) :
    produced w → produced (leave_context (main_block w).2)
| produced_request (r : Request) (w : World) :
    produced w → produced (leave_context (handle r w).2)
| produced_client (s : gmap string string) (f : list (string * string))
    (c : Z) (w : World) :
    produced w →
    produced (mkWorld s (db w) (pending w) f c (stdout w) (salts_drawn w)).

End Produced.

(** ** Proof support *)

Create HintDb app_unfold.

Global Hint Unfold
  handle index login logout rate manage_movies add_movie edit_movie
  delete_movie view bootstrap main_block or_else access_denied
  session_get session_getitem session_setitem session_pop flash print
  User_query_filter_by_username_first Movie_query_all Movie_query_get_or_404
  Rating_query_all Rating_query_order_by_created_at_desc_all
  db_tables db_create_all db_session_add db_session_add_all db_session_delete
  db_session_commit generate_password_hash_salted
  gets modify raise mbind M_bind mret M_ret : app_unfold.

(** Runs a handler symbolically: unfolds the monad and the Flask layer. *)
Ltac run := autounfold with app_unfold; simpl.

(** Case analysis on the tests a handler makes, innermost first. *)
Ltac crunch :=
  repeat (match goal with
          | |- context [match db ?w with _ => _ end] =>
              destruct (db w) eqn:?
          | |- context [match find_movie ?i ?l with _ => _ end] =>
              destruct (find_movie i l) eqn:?
          | |- context [match find_user ?n ?l with _ => _ end] =>
              destruct (find_user n l) eqn:?
          | |- context [match flush ?n ?t ?ps with _ => _ end] =>
              destruct (flush n t ps) eqn:?
          | |- context [if ?b then _ else _] =>
              destruct b eqn:?
          end; simpl).

(** Runs a handler on a world given by its fields and splits on every test
    it makes. *)
Ltac exec :=
  run; rewrite ?lookup_insert_eq; crunch;
  rewrite ?lookup_insert_eq; simpl; crunch.

(** ** The store: lookups and fresh ids *)

Lemma find_user_None (n : string) (l : list User.t) :
  find_user n l = None ↔ n ∉ User.username <$> l.
Proof.
  unfold find_user. rewrite head_None. split.
  - intros Hnil [u [-> Hu]]%list_elem_of_fmap.
    assert (u ∈ filter (λ u0, User.username u0 = User.username u) l) as Hin
      by (apply list_elem_of_filter; done).
    rewrite Hnil in Hin. by apply not_elem_of_nil in Hin.
  - intros Hn. destruct (filter _ l) as [|u l'] eqn:E; [done|].
    assert (u ∈ filter (λ u0, User.username u0 = n) l) as Hin
      by (rewrite E; left).
    apply list_elem_of_filter in Hin as [<- Hin].
    exfalso. apply Hn. apply list_elem_of_fmap. eauto.
Qed.

Lemma find_user_Some (n : string) (l : list User.t) (u : User.t) :
  find_user n l = Some u → u ∈ l ∧ User.username u = n.
Proof.
  unfold find_user. intros Hh.
  assert (u ∈ filter (λ u0, User.username u0 = n) l) as Hin.
  { destruct (filter _ l); simplify_eq/=. left. }
  apply list_elem_of_filter in Hin. tauto.
Qed.

Lemma NoDup_fmap_key {A K} (key : A → K) (l : list A) (x y : A) :
  NoDup (key <$> l) → x ∈ l → y ∈ l → key x = key y → x = y.
Proof.
  induction l as [|a l IH]; simpl; intros Hnd Hx Hy Hk.
  - by apply not_elem_of_nil in Hx.
  - apply NoDup_cons in Hnd as [Ha Hnd].
    apply elem_of_cons in Hx as [->|Hx], Hy as [->|Hy]; auto.
    + exfalso. apply Ha. rewrite Hk. apply list_elem_of_fmap. eauto.
    + exfalso. apply Ha. rewrite <- Hk. apply list_elem_of_fmap. eauto.
Qed.

Lemma find_user_unique (l : list User.t) (u : User.t) :
  NoDup (User.username <$> l) → u ∈ l → find_user (User.username u) l = Some u.
Proof.
  intros Hnd Hu.
  destruct (find_user (User.username u) l) as [u'|] eqn:E.
  - apply find_user_Some in E as [Hu' Hn]. f_equal.
    by apply (NoDup_fmap_key User.username l).
  - apply find_user_None in E. exfalso. apply E.
    apply list_elem_of_fmap. eauto.
Qed.

Lemma find_movie_None (i : N) (l : list Movie.t) :
  find_movie i l = None ↔ i ∉ Movie.id <$> l.
Proof.
  unfold find_movie. rewrite head_None. split.
  - intros Hnil [m [-> Hm]]%list_elem_of_fmap.
    assert (m ∈ filter (λ m0, Movie.id m0 = Movie.id m) l) as Hin
      by (apply list_elem_of_filter; done).
    rewrite Hnil in Hin. by apply not_elem_of_nil in Hin.
  - intros Hn. destruct (filter _ l) as [|m l'] eqn:E; [done|].
    assert (m ∈ filter (λ m0, Movie.id m0 = i) l) as Hin
      by (rewrite E; left).
    apply list_elem_of_filter in Hin as [<- Hin].
    exfalso. apply Hn. apply list_elem_of_fmap. eauto.
Qed.

Lemma find_movie_Some (i : N) (l : list Movie.t) (m : Movie.t) :
  find_movie i l = Some m → m ∈ l ∧ Movie.id m = i.
Proof.
  unfold find_movie. intros Hh.
  assert (m ∈ filter (λ m0, Movie.id m0 = i) l) as Hin.
  { destruct (filter _ l); simplify_eq/=. left. }
  apply list_elem_of_filter in Hin. tauto.
Qed.

Lemma find_movie_unique (l : list Movie.t) (m : Movie.t) :
  NoDup (Movie.id <$> l) → m ∈ l → find_movie (Movie.id m) l = Some m.
Proof.
  intros Hnd Hm.
  destruct (find_movie (Movie.id m) l) as [m'|] eqn:E.
  - apply find_movie_Some in E as [Hm' Hn]. f_equal.
    by apply (NoDup_fmap_key Movie.id l).
  - apply find_movie_None in E. exfalso. apply E.
    apply list_elem_of_fmap. eauto.
Qed.

Lemma fresh_id_bound (ids : list N) (i : N) : i ∈ ids → i < fresh_id ids.
Proof.
  unfold fresh_id. induction ids as [|j ids IH]; simpl.
  - intros Hi. by apply not_elem_of_nil in Hi.
  - intros [->|Hi]%elem_of_cons; [lia|]. specialize (IH Hi). lia.
Qed.

Lemma fresh_id_fresh (ids : list N) : fresh_id ids ∉ ids.
Proof. intros Hin%fresh_id_bound. lia. Qed.

(** ** Session and authorization *)

Section Guard.
Context `{Collaborators}.

(** C5: in every session state, logout removes the [user] and the [role]
    entries of the session and redirects home; a second logout ends in the
    same session as the first. *)
Theorem logout_clears_and_is_idempotent (w : World) :
  ∃ w1 w2,
    logout w = (Return (redirect (url_for index_ep)), w1) ∧
    logout w1 = (Return (redirect (url_for index_ep)), w2) ∧
    session w1 = delete "role" (delete "user" (session w)) ∧
    session w1 !! "user" = None ∧
    session w1 !! "role" = None ∧
    session w2 = session w1.
Proof.
  do 2 eexists. run. repeat split.
  - by simplify_map_eq.
  - by simplify_map_eq.
  - apply map_eq. intros k.
    destruct (decide (k = "role")) as [->|]; [by simplify_map_eq|].
    destruct (decide (k = "user")) as [->|]; by simplify_map_eq.
Qed.

(** C2: a denied request on a guarded route ends in a redirect to the home
    view with the warning [Access denied.] flashed; no exception is raised,
    and the session, the tables and the unit of work stay as they were. *)
Theorem denied_request_is_recovered (r : Request) (w : World) (q : string) :
  required_role r = Some q →
  session w !! "role" ≠ Some q →
  ∃ w',
    handle r w = (Return (redirect (url_for index_ep)), w') ∧
    flashes w' = (flashes w ++ [("Access denied.", "danger")])%list ∧
    session w' = session w ∧
    db w' = db w ∧
    pending w' = pending w.
Proof.
  intros Hq Hrole.
  destruct r; simplify_eq/=; run;
    (rewrite bool_decide_eq_true_2 by done); simpl; eauto 10.
Qed.

(** C9: edit and delete check the role before they look the movie up.  For a
    session whose role is not [admin] the outcome is the access-denied
    redirect for every id, whatever the tables hold, and a not-found outcome
    comes only out of an admin session. *)
Theorem guard_precedes_lookup (w : World) (id : N) (method : Method)
    (form : MovieForm.t) :
  (session w !! "role" ≠ Some "admin" →
     edit_movie id method form w = access_denied w ∧
     delete_movie id w = access_denied w ∧
     ∀ (d : option Tables) (id' : N),
       (edit_movie id' method form (with_db d w)).1
         = (edit_movie id method form w).1 ∧
       flashes (edit_movie id' method form (with_db d w)).2
         = flashes (edit_movie id method form w).2 ∧
       (delete_movie id' (with_db d w)).1 = (delete_movie id w).1 ∧
       flashes (delete_movie id' (with_db d w)).2
         = flashes (delete_movie id w).2) ∧
  ((edit_movie id method form w).1 = Raise NotFound ∨
   (delete_movie id w).1 = Raise NotFound →
     session w !! "role" = Some "admin").
Proof.
  split.
  - intros Hrole. run.
    rewrite !bool_decide_eq_true_2 by done. simpl. done.
  - destruct (decide (session w !! "role" = Some "admin")) as [|Hne]; [done|].
    run. rewrite !bool_decide_eq_true_2 by done. simpl.
    intros [?|?]; discriminate.
Qed.

End Guard.

Section Routes.
Context `{Collaborators}.

(** Case analysis on every test a handler makes, closing the cases whose
    two sides differ in the response or in the flashed message. *)
Ltac split_cases :=
  repeat (simplify_eq/=; try done; case_match);
  simplify_eq/=; try done.

Ltac differ :=
  let Heq := fresh "Heq" in
  intros Heq; unfold with_flashes, with_session, with_pending, with_db in Heq;
  split_cases;
  repeat match goal with
         | E : mkWorld _ _ _ _ _ _ _ = mkWorld _ _ _ _ _ _ _ |- _ =>
             apply (f_equal flashes) in E; simpl in E
         | E : (_ ++ [_])%list = (_ ++ [_])%list |- _ =>
             apply app_inv_head in E; simplify_eq
         end.

Ltac guarded q :=
  match goal with
  | |- context [session ?w !! "role"] =>
      destruct (decide (session w !! "role" = Some q)) as [Hr|Hr]; run;
      [ rewrite bool_decide_eq_false_2 by (intros ?; done);
        split; [done|]; intros _; differ
      | rewrite bool_decide_eq_true_2 by done;
        split; [|done]; intros Hne; by destruct Hne ]
  end.

(** C1: on a guarded route a request is denied exactly when the role of the
    session differs from the role the route requires (an absent role
    differs from both); a route without a guard never denies.  With
    [required_role]: [admin] for /manage, /add_movie, /edit_movie/id and
    /delete_movie/id, [viewer] for /view, none for /, /login, /logout and
    /rate. *)
Theorem access_iff_role_matches (r : Request) (w : World) :
  match required_role r with
  | Some q => handle r w ≠ access_denied w ↔ session w !! "role" = Some q
  | None => handle r w ≠ access_denied w
  end.
Proof.
  destruct r; simpl.
  - run. differ.
  - run. rewrite ?lookup_insert_eq. differ.
  - run. differ.
  - run. differ.
  - guarded "admin".
  - guarded "admin".
  - guarded "admin".
  - guarded "admin".
  - guarded "viewer".
Qed.

End Routes.

(** ** Login *)

Section Login.
Context `{Collaborators}.

(** What [login] does on a validated submission, by the user the lookup
    finds. *)
Lemma login_submitted (method : Method) (form : LoginForm.t) (t : Tables)
    (w : World) :
  validate_on_submit method (LoginForm_validate form) = true →
  db w = Some t →
  login method form w =
    match find_user (LoginForm.username form) (users t) with
    | Some u =>
        if check_password_hash (User.password u) (LoginForm.password form)
        then (Return (login_target (User.role u) form),
              with_flashes (flashes w ++ [("Login successful!", "success")])
                (with_session (logged_in u (session w)) w))
        else (Return (login_page form),
              with_flashes (flashes w ++ [("Invalid credentials", "danger")]) w)
    | None => (Return (login_page form),
               with_flashes (flashes w ++ [("Invalid credentials", "danger")]) w)
    end.
Proof.
  intros Hv Hdb. run. rewrite Hv, Hdb. simpl.
  destruct (find_user _ _) as [u|]; simpl; [|done].
  destruct (check_password_hash _ _); simpl; [|done].
  rewrite lookup_insert_eq. unfold login_target, logged_in. simpl.
  repeat case_bool_decide; done.
Qed.

(** C3: when the submitted user name is that of a stored user and the
    password verifies against that user's stored hash, login writes the
    user's name and stored role into the session, and redirects a viewer to
    the ratings view and an admin to the movie management. *)
Theorem login_success_sets_role (method : Method) (form : LoginForm.t)
    (t : Tables) (w : World) (u : User.t) :
  ready t w →
  validate_on_submit method (LoginForm_validate form) = true →
  u ∈ users t →
  User.username u = LoginForm.username form →
  check_password_hash (User.password u) (LoginForm.password form) = true →
  ∃ resp w',
    login method form w = (Return resp, w') ∧
    session w' = <["role" := User.role u]> (<["user" := User.username u]> (session w)) ∧
    session w' !! "user" = Some (User.username u) ∧
    session w' !! "role" = Some (User.role u) ∧
    (User.role u = "viewer" → resp = redirect (url_for view_ep)) ∧
    (User.role u = "admin" → resp = redirect (url_for manage_movies_ep)) ∧
    db w' = db w.
Proof.
  intros (Hdb & _ & Hu & _) Hv Hin Hname Hpw.
  rewrite (login_submitted method form t w Hv Hdb).
  rewrite <- Hname, (find_user_unique _ _ Hu Hin), Hpw.
  do 2 eexists. split; [done|]. simpl. unfold logged_in, login_target.
  repeat split.
  - by simplify_map_eq.
  - by simplify_map_eq.
  - intros ->. done.
  - intros ->. done.
Qed.

(** C4: when the submitted user name is that of no stored user, or the
    password fails verification against the stored hash of the user of that
    name, the session is left as it was, [Invalid credentials] is flashed at
    level [danger], and the login form is rendered again. *)
Theorem login_failure_keeps_session (method : Method) (form : LoginForm.t)
    (t : Tables) (w : World) :
  ready t w →
  validate_on_submit method (LoginForm_validate form) = true →
  (LoginForm.username form ∉ User.username <$> users t) ∨
  (∃ u, u ∈ users t ∧ User.username u = LoginForm.username form ∧
        check_password_hash (User.password u) (LoginForm.password form) = false) →
  ∃ w',
    login method form w
      = (Return (render_template "login.html"
                   [("form", VLoginForm form); ("title", VStr "Login")]), w') ∧
    session w' = session w ∧
    flashes w' = (flashes w ++ [("Invalid credentials", "danger")])%list ∧
    db w' = db w.
Proof.
  intros (Hdb & _ & Hu & _) Hv Hbad.
  rewrite (login_submitted method form t w Hv Hdb).
  destruct Hbad as [Hnone|(u & Hin & Hname & Hpw)].
  - apply find_user_None in Hnone. rewrite Hnone. eauto.
  - rewrite <- Hname, (find_user_unique _ _ Hu Hin), Hpw. eauto.
Qed.

(** C10: the [user] and [role] entries of the session are written by a
    login that succeeds and removed by logout; every other handler, and a
    login that does not succeed, leaves the session as it found it. *)
Theorem session_written_only_by_login_logout (r : Request) (w : World) :
  match r with
  | req_login method form =>
      session (handle r w).2 = session w ∨
      ∃ t u,
        db w = Some t ∧ u ∈ users t ∧
        validate_on_submit method (LoginForm_validate form) = true ∧
        User.username u = LoginForm.username form ∧
        check_password_hash (User.password u) (LoginForm.password form) = true ∧
        session (handle r w).2
          = <["role" := User.role u]> (<["user" := User.username u]> (session w))
  | get_logout =>
      session (handle r w).2 = delete "role" (delete "user" (session w))
  | _ => session (handle r w).2 = session w
  end.
Proof.
  destruct r; simpl.
  - run. crunch; done.
  - destruct (validate_on_submit method (LoginForm_validate form)) eqn:Hv;
      [|left; run; by rewrite Hv].
    destruct (db w) as [t|] eqn:Hdb; [|left; run; by rewrite Hv, Hdb].
    rewrite (login_submitted method form t w Hv Hdb).
    destruct (find_user _ _) as [u|] eqn:Hu; [|by left].
    destruct (check_password_hash _ _) eqn:Hpw; [|by left].
    right. apply find_user_Some in Hu as [Hin Hname]. eauto 10.
  - run. done.
  - run. crunch; done.
  - run. crunch; done.
  - run. crunch; done.
  - run. crunch; done.
  - run. crunch; done.
  - run. crunch; done.
Qed.

End Login.

(** ** The store under the handlers *)

Lemma fmap_update_ids (i : N) (ti de : string) (l : list Movie.t) :
  Movie.id <$> ((λ m, if bool_decide (Movie.id m = i) then Movie.mk i ti de else m) <$> l)
  = Movie.id <$> l.
Proof.
  induction l as [|m l IH]; simpl; [done|]. f_equal; [|done].
  case_bool_decide; simpl; done.
Qed.

Lemma NoDup_fmap_filter {A K} (key : A → K) (P : A → Prop)
    `{∀ x, Decision (P x)} (l : list A) :
  NoDup (key <$> l) → NoDup (key <$> filter P l).
Proof.
  induction l as [|a l IH]; simpl; [done|].
  intros [Ha Hnd]%NoDup_cons. rewrite filter_cons. case_decide; simpl; [|auto].
  apply NoDup_cons. split; [|auto].
  intros (y & Hk & [_ Hy]%list_elem_of_filter)%list_elem_of_fmap.
  apply Ha. apply list_elem_of_fmap. eauto.
Qed.

Lemma NoDup_snoc_fresh {K} (ks : list K) (k : K) :
  NoDup ks → k ∉ ks → NoDup (ks ++ [k]).
Proof.
  intros Hnd Hk. apply NoDup_app. repeat split; [done| |apply NoDup_singleton].
  intros x Hx ->%list_elem_of_singleton. done.
Qed.

Lemma filter_all {A} (P : A → Prop) `{∀ x, Decision (P x)} (l : list A) :
  Forall P l → filter P l = l.
Proof.
  induction 1 as [|x l Hx Hl IH]; [done|].
  rewrite filter_cons, decide_True by done. by f_equal.
Qed.

(** Filtering one key out of a table with unique keys drops one row. *)
Lemma length_filter_out {A K} `{EqDecision K} (key : A → K) (l : list A) (x : A) :
  NoDup (key <$> l) → x ∈ l →
  S (length (filter (λ y, key y ≠ key x) l)) = length l.
Proof.
  induction l as [|a l IH]; simpl.
  { intros _ Hin. by apply not_elem_of_nil in Hin. }
  intros [Ha Hnd]%NoDup_cons Hin. rewrite filter_cons.
  apply elem_of_cons in Hin as [->|Hin].
  - rewrite decide_False by (intros Hc; by apply Hc). f_equal.
    rewrite filter_all; [done|]. apply Forall_forall.
    intros y Hy Heq. apply Ha. rewrite <- Heq. apply list_elem_of_fmap. eauto.
  - rewrite decide_True.
    2:{ intros Heq. apply Ha. rewrite Heq. apply list_elem_of_fmap. eauto. }
    simpl. f_equal. by apply IH.
Qed.

(** A flushed change keeps the constraints of the schema. *)
Lemma flush_one_wf (now : Z) (t t' : Tables) (p : Pending) :
  wf_tables t → flush_one now t p = Some t' → wf_tables t'.
Proof.
  intros (Hu & Hm & Hr) Hf. destruct p; simpl in Hf.
  - case_bool_decide; simplify_eq. repeat split; simpl; [|done..].
    rewrite fmap_app. by apply NoDup_snoc_fresh.
  - simplify_eq. repeat split; simpl; [done| |done].
    rewrite fmap_app. apply NoDup_snoc_fresh; [done|apply fresh_id_fresh].
  - simplify_eq. repeat split; simpl; [done..|].
    rewrite fmap_app. apply NoDup_snoc_fresh; [done|apply fresh_id_fresh].
  - simplify_eq. repeat split; simpl; [done| |done].
    by rewrite fmap_update_ids.
  - simplify_eq. repeat split; simpl; [done| |done].
    by apply NoDup_fmap_filter.
Qed.

Lemma flush_wf (now : Z) (ps : list Pending) (t t' : Tables) :
  wf_tables t → flush now t ps = Some t' → wf_tables t'.
Proof.
  revert t. induction ps as [|p ps IH]; simpl; intros t Hwf Hf.
  - by simplify_eq.
  - destruct (flush_one now t p) as [t1|] eqn:E; simplify_eq/=.
    eauto using flush_one_wf.
Qed.

Section Store.
Context `{Collaborators}.

(** X1: every handler leaves the store ready for the next request: the schema
    constraints hold and nothing is left staged. *)
Lemma handle_preserves_ready (r : Request) (t : Tables) (w : World) :
  ready t w → ∃ t', ready t' (handle r w).2.
Proof.
  intros (Hdb & Hp & Hwf). destruct w as [s d p f c o n]. simpl in *. subst.
  destruct r; run; rewrite ?lookup_insert_eq; crunch;
    rewrite ?lookup_insert_eq; simpl; crunch;
    unfold ready, with_flashes, with_session, with_pending, with_db; simpl;
    eexists; (split; [reflexivity|]); (split; [reflexivity|]);
    try done;
    first [ eapply (flush_one_wf c t _ (AddRating _ _ _ _)); [done|reflexivity]
          | eapply (flush_one_wf 0 t _ (AddMovie _ _)); [done|reflexivity]
          | eapply (flush_one_wf 0 t _ (UpdateMovie _ _ _)); [done|reflexivity]
          | eapply (flush_one_wf 0 t _ (DeleteMovie _)); [done|reflexivity] ].
Qed.

End Store.

(** ** Ratings and movies *)

Lemma insert_by_created_perm (r : Rating.t) (l : list Rating.t) :
  insert_by_created r l ≡ₚ r :: l.
Proof.
  induction l as [|x l IH]; simpl; [done|].
  case_decide; [|done]. rewrite IH. apply Permutation_swap.
Qed.

Lemma insert_by_created_sorted (r : Rating.t) (l : list Rating.t) :
  StronglySorted created_desc l →
  StronglySorted created_desc (insert_by_created r l).
Proof.
  induction 1 as [|x l Hl IH Hx]; simpl.
  - repeat constructor.
  - case_decide as Hc.
    + constructor; [done|]. rewrite insert_by_created_perm. by constructor.
    + constructor; [by constructor|]. constructor.
      * unfold created_desc in *. lia.
      * eapply Forall_impl; [exact Hx|]. intros y Hy.
        unfold created_desc in *. lia.
Qed.

Lemma sort_created_desc_from (l acc : list Rating.t) :
  StronglySorted created_desc acc →
  StronglySorted created_desc (foldl (λ sorted r, insert_by_created r sorted) acc l) ∧
  foldl (λ sorted r, insert_by_created r sorted) acc l ≡ₚ (acc ++ l)%list.
Proof.
  revert acc. induction l as [|r l IH]; simpl; intros acc Hacc.
  - by rewrite app_nil_r.
  - destruct (IH (insert_by_created r acc)) as [Hs Hp];
      [by apply insert_by_created_sorted|].
    split; [done|]. rewrite Hp, insert_by_created_perm. simpl.
    apply Permutation_middle.
Qed.

(** The listing of /rate is the rating table, latest first. *)
Lemma sort_created_desc_sorted (l : list Rating.t) :
  StronglySorted created_desc (sort_created_desc l).
Proof. apply (sort_created_desc_from l []). constructor. Qed.

Lemma sort_created_desc_perm (l : list Rating.t) : sort_created_desc l ≡ₚ l.
Proof. apply (sort_created_desc_from l []). constructor. Qed.

Section Catalogue.
Context `{Collaborators}.

(** C6: /rate has no guard.  In every session state, a submission that the
    form accepts stores exactly one new rating, stamped with the server's
    clock, flashes the success message and redirects to /rate; the page
    then lists the stored ratings, the new one among them, latest first. *)
Theorem rate_submission_stores_one_rating (form : RateForm.t) (t : Tables)
    (w : World) :
  ready t w →
  RateForm_validate ((λ m, (Movie.title m, Movie.title m)) <$> movies t) form
    = true →
  ∃ (r : Rating.t) (w' : World),
    rate POST form w = (Return (redirect (url_for rate_ep)), w') ∧
    db w' = Some (mkTables (users t) (movies t) (ratings t ++ [r])) ∧
    (r ∉ ratings t) ∧
    Rating.created_at r = clock w ∧
    (Rating.name r, Rating.movie r, Rating.stars r, Rating.remarks r)
      = (RateForm.name form, RateForm.movieList form, RateForm.stars form,
         RateForm.remarks form) ∧
    flashes w' = (flashes w ++ [("Rating submitted successfully!", "success")])%list ∧
    session w' = session w ∧
    ∀ form' : RateForm.t, ∃ (listing : list Rating.t) choices,
      rate GET form' w'
        = (Return (render_template "rate.html"
                     [("form", VRateForm form' choices);
                      ("ratings", VRatings listing)]), w') ∧
      StronglySorted created_desc listing ∧
      listing ≡ₚ ratings t ++ [r].
Proof.
  intros (Hdb & Hp & Hwf) Hv. destruct w as [s d p f c o n]. simpl in *. subst.
  exists (Rating.mk (fresh_id (Rating.id <$> ratings t)) (RateForm.name form)
            (RateForm.movieList form) (RateForm.stars form)
            (RateForm.remarks form) c).
  eexists. run. rewrite Hv. simpl. split; [reflexivity|]. simpl.
  split; [reflexivity|]. split.
  { intros Hin. apply (fresh_id_fresh (Rating.id <$> ratings t)).
    apply list_elem_of_fmap. eexists. split; [|exact Hin]. done. }
  do 4 (split; [reflexivity|]).
  intros form'. do 2 eexists. split; [reflexivity|]. split.
  - apply sort_created_desc_sorted.
  - apply sort_created_desc_perm.
Qed.

(** X19: in an admin session, deleting the id of a stored movie removes that
    movie and no other, so that the home and management listings that
    follow leave it out, and redirects to the management list; deleting an
    id that no movie has leaves the whole world, the movies with it, as it
    was, and raises not-found for an id up to [max_id] and [OverflowError]
    for one beyond. *)
Theorem delete_movie_removes_exactly_one (id : N) (t : Tables) (w : World) :
  ready t w →
  session w !! "role" = Some "admin" →
  (∀ m, m ∈ movies t → Movie.id m = id →
     ∃ w' rest,
       delete_movie id w = (Return (redirect (url_for manage_movies_ep)), w') ∧
       db w' = Some (mkTables (users t) rest (ratings t)) ∧
       rest = filter (λ m', Movie.id m' ≠ id) (movies t) ∧
       (∀ m', m' ∈ rest ↔ m' ∈ movies t ∧ m' ≠ m) ∧
       S (length rest) = length (movies t) ∧
       index w' = (Return (render_template "index.html"
                             [("title", VStr "Home"); ("movies", VMovies rest)]), w') ∧
       manage_movies w' = (Return (render_template "manage_movies.html"
                                     [("movies", VMovies rest)]), w')) ∧
  (id ∉ Movie.id <$> movies t →
     (id ≤ max_id → delete_movie id w = (Raise NotFound, w)) ∧
     (max_id < id → delete_movie id w = (Raise OverflowError, w))).
Proof.
  intros (Hdb & Hp & Hu & Hm & Hr) Hrole.
  destruct w as [s d p f c o n]. simpl in *. subst. split.
  - intros m Hin <-. do 2 eexists. run. rewrite Hrole. simpl.
    rewrite (find_movie_unique _ _ Hm Hin). simpl.
    split; [reflexivity|]. simpl. split; [reflexivity|]. split; [reflexivity|].
    split; [|split].
    + intros m'. rewrite list_elem_of_filter. split.
      * intros [Hne Hin']. split; [done|]. by intros ->.
      * intros [Hin' Hne]. split; [|done]. intros Heq. apply Hne.
        by apply (NoDup_fmap_key Movie.id (movies t)).
    + by apply (length_filter_out Movie.id).
    + rewrite Hrole. simpl. done.
  - intros Hnone. apply find_movie_None in Hnone.
    split; intros Hid; run; rewrite Hrole; simpl; rewrite Hnone; simpl.
    + by rewrite bool_decide_eq_true_2.
    + rewrite bool_decide_eq_false_2 by lia. done.
Qed.

End Catalogue.

(** C7, where the code parts from the claim: in an admin session, deleting
    the id 2^63, which no movie has, does not end in not-found.  The query
    cannot bind the id and raises [OverflowError]; the movies stay as they
    were. *)
Theorem delete_movie_beyond_max_id_overflows :
  session (stocked_world admin_session) !! "role" = Some "admin" ∧
  (2 ^ 63 ∉ Movie.id <$> movies two_movies) ∧
  delete_movie (2 ^ 63) (stocked_world admin_session)
    = (Raise OverflowError, stocked_world admin_session) ∧
  (delete_movie (2 ^ 63) (stocked_world admin_session)).1 ≠ Raise NotFound.
Proof.
  split; [by vm_compute|]. split.
  { apply (bool_decide_unpack _). by vm_compute. }
  split; [by vm_compute|]. by vm_compute.
Qed.

(** ** Start-up *)

Lemma flush_two_users (now : Z) (t t' : Tables) (a v : User.t) :
  flush now t [AddUser a; AddUser v] = Some t' →
  t' = mkTables (users t ++ [a; v]) (movies t) (ratings t).
Proof.
  simpl. destruct (bool_decide _); simpl; [done|].
  destruct (bool_decide _); simpl; [done|].
  intros [= <-]. by rewrite <- app_assoc.
Qed.

Section Startup.
Context `{Collaborators}.


(** When a user named [admin] is stored, start-up adds nobody. *)
Lemma bootstrap_keeps_existing_admin (w : World) (t : Tables) :
  db w = Some t →
  "admin" ∈ User.username <$> users t →
  bootstrap w = (Return (), w).
Proof.
  intros Hdb Hin. destruct w as [s d p f c o n]. simpl in *. subst.
  run. destruct (find_user "admin" (users t)) eqn:E; simpl; [done|].
  apply find_user_None in E. done.
Qed.

(** X2: a start-up that returns leaves the store ready for the handlers, with
    the admin account in it, so that the block under [__main__] that follows
    changes nothing. *)
Lemma bootstrap_ready (w w' : World) :
  pending w = [] →
  wf_tables (tables_of w) →
  bootstrap w = (Return (), w') →
  ready (tables_of w') w' ∧
  "admin" ∈ User.username <$> users (tables_of w') ∧
  main_block w' = (Return (), w').
Proof.
  intros Hp Hwf. destruct w as [s d p f c o n].
  unfold tables_of in *. simpl in *. subst.
  assert (∀ t, wf_tables t →
            bootstrap (mkWorld s (Some t) [] f c o n) = (Return (), w') →
            ready (default empty_tables (db w')) w' ∧
            "admin" ∈ User.username <$> users (default empty_tables (db w')) ∧
            main_block w' = (Return (), w')) as Hsome.
  { intros t Hwft. autounfold with app_unfold. cbn -[flush].
    destruct (find_user "admin" (users t)) as [u|] eqn:Hfind; cbn -[flush].
    - intros [= <-]. simpl. rewrite Hfind. simpl.
      split; [split; [done|split; [done|exact Hwft]]|]. split; [|done].
      apply find_user_Some in Hfind as [Hin Hname].
      apply list_elem_of_fmap. eauto.
    - destruct (flush _ _ _) as [t'|] eqn:Hflush; cbn -[flush]; [|done].
      intros [= <-]. simpl.
      assert ("admin" ∈ User.username <$> users t') as Hadmin.
      { apply flush_two_users in Hflush as ->. simpl.
        rewrite fmap_app, elem_of_app. right. left. }
      destruct (find_user "admin" (users t')) as [u|] eqn:Hfind';
        [|by apply find_user_None in Hfind'].
      simpl. split; [|done]. split; [done|]. split; [done|].
      eapply flush_wf; eauto. }
  destruct d as [t|]; [by apply Hsome|].
  intros Hrun. apply (Hsome empty_tables Hwf). exact Hrun.
Qed.

(** What every produced world has: nothing staged, and either no user yet
    or the admin account. *)
Lemma produced_users (w : World) :
  produced w →
  pending w = [] ∧
  (users (tables_of w) = [] ∨ "admin" ∈ User.username <$> users (tables_of w)).
Proof.
  assert (∀ (m : M unit) (w0 : World),
            (m = bootstrap ∨ m = main_block) →
            pending w0 = [] →
            users (tables_of w0) = [] ∨
              "admin" ∈ User.username <$> users (tables_of w0) →
            users (tables_of (m w0).2) = [] ∨
              "admin" ∈ User.username <$> users (tables_of (m w0).2)) as Hseed.
  { intros m [s d p f c o n] Hm Hp Hor. unfold tables_of in *. simpl in *. subst.
    assert (∀ t, users t = [] ∨ "admin" ∈ User.username <$> users t →
              let w' := (m (mkWorld s (Some t) [] f c o n)).2 in
              users (default empty_tables (db w')) = [] ∨
              "admin" ∈ User.username <$> users (default empty_tables (db w')))
      as Hsome.
    { intros t Ht.
      destruct Hm as [-> | ->]; autounfold with app_unfold; cbn -[flush];
        (destruct (find_user "admin" (users t)) as [u|] eqn:Hfind; cbn -[flush];
         [ right; apply find_user_Some in Hfind as [Hin Hname];
           apply list_elem_of_fmap; eauto
         | destruct (flush _ _ _) as [t'|] eqn:Hflush; cbn -[flush];
           [ right; apply flush_two_users in Hflush as ->; simpl;
             rewrite fmap_app, elem_of_app; right; left
           | exact Ht ] ]). }
    destruct d as [t|]; [by apply Hsome|].
    destruct Hm as [-> | ->]; apply (Hsome empty_tables); by left. }
  induction 1 as [w Hu Hp|w Hw [Hp Hor]|w Hw [Hp Hor]|r w Hw [Hp Hor]
                  |s f c w Hw [Hp Hor]].
  - auto.
  - split; [done|]. apply (Hseed bootstrap w); auto.
  - split; [done|]. apply (Hseed main_block w); auto.
  - split; [done|]. unfold leave_context, tables_of in *.
    destruct w as [s [t|] p f c o n]; simpl in *; subst;
      destruct r; exec; done.
  - done.
Qed.


(** A store that holds [viewer] but not [admin] is none the application
    produces. *)
Lemma viewer_only_not_produced : ¬ @produced H viewer_only_world.
Proof.
  intros [_ [Hnil|Hin]]%produced_users.
  - discriminate Hnil.
  - vm_compute in Hin. apply list_elem_of_singleton in Hin. discriminate.
Qed.

End Startup.


(** ** Concrete runs under the test double *)



Ltac by_computation := vm_compute; first [reflexivity | exact I | discriminate | done].

Ltac ready_by_computation :=
  split; [by_computation|]; split; [by_computation|];
  repeat split; apply (bool_decide_unpack _); by_computation.

Lemma denied_request_is_recovered_witness :
  required_role get_manage = Some "admin" ∧
  session (stocked_world viewer_session) !! "role" ≠ Some "admin" ∧
  ∃ w',
    @handle demo get_manage (stocked_world viewer_session)
      = (Return (redirect (url_for index_ep)), w') ∧
    flashes w' = (flashes (stocked_world viewer_session)
                    ++ [("Access denied.", "danger")])%list ∧
    session w' = session (stocked_world viewer_session) ∧
    db w' = db (stocked_world viewer_session) ∧
    pending w' = pending (stocked_world viewer_session).
Proof.
  assert (session (stocked_world viewer_session) !! "role" ≠ Some "admin") as Hne
    by by_computation.
  split; [reflexivity|]. split; [exact Hne|].
  exact (@denied_request_is_recovered demo get_manage
           (stocked_world viewer_session) "admin" eq_refl Hne).
Defined.

Lemma guard_precedes_lookup_witness :
  session (stocked_world viewer_session) !! "role" ≠ Some "admin" ∧
  @edit_movie demo 2 POST (MovieForm.mk "Heat II" "Sequel")
     (stocked_world viewer_session)
    = access_denied (stocked_world viewer_session) ∧
  delete_movie 2 (stocked_world viewer_session)
    = access_denied (stocked_world viewer_session) ∧
  (@edit_movie demo 7 POST (MovieForm.mk "Heat II" "Sequel")
     (with_db (Some empty_tables) (stocked_world viewer_session))).1
    = (@edit_movie demo 2 POST (MovieForm.mk "Heat II" "Sequel")
         (stocked_world viewer_session)).1.
Proof.
  assert (session (stocked_world viewer_session) !! "role" ≠ Some "admin") as Hne
    by by_computation.
  split; [exact Hne|].
  destruct (@guard_precedes_lookup demo (stocked_world viewer_session) 2 POST
              (MovieForm.mk "Heat II" "Sequel")) as [Hdenied _].
  destruct (Hdenied Hne) as (Hedit & Hdelete & Hsame).
  split; [exact Hedit|]. split; [exact Hdelete|].
  exact (proj1 (Hsame (Some empty_tables) 7)).
Defined.

Lemma login_success_sets_role_witness :
  ready seeded_tables seeded_world ∧
  (∃ resp w',
     @login demo POST (LoginForm.mk "admin" "admin123") seeded_world
       = (Return resp, w') ∧
     session w' !! "user" = Some "admin" ∧
     session w' !! "role" = Some "admin" ∧
     resp = redirect (url_for manage_movies_ep)) ∧
  (∃ resp w',
     @login demo POST (LoginForm.mk "viewer" "viewer123") seeded_world
       = (Return resp, w') ∧
     session w' !! "user" = Some "viewer" ∧
     session w' !! "role" = Some "viewer" ∧
     resp = redirect (url_for view_ep)).
Proof.
  assert (ready seeded_tables seeded_world) as Hready by ready_by_computation.
  split; [exact Hready|]. split.
  - destruct (@login_success_sets_role demo POST (LoginForm.mk "admin" "admin123")
                seeded_tables seeded_world
                (User.mk "admin" (demo_hash 0 "admin123") "admin"))
      as (resp & w' & Hrun & _ & Huser & Hrole & _ & Hadmin & _).
    + exact Hready.
    + by_computation.
    + left.
    + reflexivity.
    + by_computation.
    + exists resp, w'. repeat split; [exact Hrun|exact Huser|exact Hrole|].
      apply Hadmin. reflexivity.
  - destruct (@login_success_sets_role demo POST (LoginForm.mk "viewer" "viewer123")
                seeded_tables seeded_world
                (User.mk "viewer" (demo_hash 1 "viewer123") "viewer"))
      as (resp & w' & Hrun & _ & Huser & Hrole & Hviewer & _).
    + exact Hready.
    + by_computation.
    + right. left.
    + reflexivity.
    + by_computation.
    + exists resp, w'. repeat split; [exact Hrun|exact Huser|exact Hrole|].
      apply Hviewer. reflexivity.
Defined.

Lemma login_failure_keeps_session_witness :
  ready seeded_tables seeded_world ∧
  (∃ w',
     @login demo POST (LoginForm.mk "admin" "letmein") seeded_world
       = (Return (render_template "login.html"
                    [("form", VLoginForm (LoginForm.mk "admin" "letmein"));
                     ("title", VStr "Login")]), w') ∧
     session w' = session seeded_world ∧
     flashes w' = (flashes seeded_world ++ [("Invalid credentials", "danger")])%list ∧
     db w' = db seeded_world) ∧
  (∃ w',
     @login demo POST (LoginForm.mk "mallory" "admin123") seeded_world
       = (Return (render_template "login.html"
                    [("form", VLoginForm (LoginForm.mk "mallory" "admin123"));
                     ("title", VStr "Login")]), w') ∧
     session w' = session seeded_world ∧
     flashes w' = (flashes seeded_world ++ [("Invalid credentials", "danger")])%list ∧
     db w' = db seeded_world).
Proof.
  assert (ready seeded_tables seeded_world) as Hready by ready_by_computation.
  split; [exact Hready|]. split.
  - apply (@login_failure_keeps_session demo POST (LoginForm.mk "admin" "letmein")
             seeded_tables seeded_world Hready); [by_computation|].
    right. exists (User.mk "admin" (demo_hash 0 "admin123") "admin").
    split; [left|]. split; by_computation.
  - apply (@login_failure_keeps_session demo POST (LoginForm.mk "mallory" "admin123")
             seeded_tables seeded_world Hready); [by_computation|].
    left. apply (bool_decide_unpack _). by_computation.
Defined.

Lemma rate_submission_stores_one_rating_witness :
  ready two_movies (stocked_world ∅) ∧
  ∃ (r : Rating.t) (w' : World),
    @rate demo POST (RateForm.mk "zed" "Heat" 3 "ok") (stocked_world ∅)
      = (Return (redirect (url_for rate_ep)), w') ∧
    db w' = Some (mkTables (users two_movies) (movies two_movies)
                    (ratings two_movies ++ [r])) ∧
    Rating.created_at r = 40%Z.
Proof.
  assert (ready two_movies (stocked_world ∅)) as Hready by ready_by_computation.
  split; [exact Hready|].
  destruct (@rate_submission_stores_one_rating demo (RateForm.mk "zed" "Heat" 3 "ok")
              two_movies (stocked_world ∅) Hready)
    as (r & w' & Hrun & Hdb & _ & Hat & _).
  - by_computation.
  - exists r, w'. repeat split; [exact Hrun|exact Hdb|exact Hat].
Defined.

Lemma delete_movie_removes_exactly_one_witness :
  ready two_movies (stocked_world admin_session) ∧
  session (stocked_world admin_session) !! "role" = Some "admin" ∧
  (∃ w' rest,
     delete_movie 2 (stocked_world admin_session)
       = (Return (redirect (url_for manage_movies_ep)), w') ∧
     db w' = Some (mkTables (users two_movies) rest (ratings two_movies)) ∧
     rest = filter (λ m', Movie.id m' ≠ 2) (movies two_movies)) ∧
  delete_movie 7 (stocked_world admin_session)
    = (Raise NotFound, stocked_world admin_session).
Proof.
  assert (ready two_movies (stocked_world admin_session)) as Hready
    by ready_by_computation.
  assert (session (stocked_world admin_session) !! "role" = Some "admin") as Hrole
    by by_computation.
  split; [exact Hready|]. split; [exact Hrole|]. split.
  - destruct (proj1 (delete_movie_removes_exactly_one 2 two_movies
                       (stocked_world admin_session) Hready Hrole)
                (Movie.mk 2 "Heat" "Heist"))
      as (w' & rest & Hrun & Hdb & Hrest & _).
    + right. left.
    + reflexivity.
    + exists w', rest. repeat split; [exact Hrun|exact Hdb|exact Hrest].
  - apply (proj2 (delete_movie_removes_exactly_one 7 two_movies
                    (stocked_world admin_session) Hready Hrole)).
    + apply (bool_decide_unpack _). by_computation.
    + by_computation.
Defined.


(** The scenario of the specification, run from a store without schema:
    start-up, login as admin, a new movie, logout, login as viewer, and a
    request for the management list that is turned away. *)
Example seeded_accounts_scenario :
  let w0 := (@bootstrap demo blank_world).2 in
  let '(r1, w1) := @login demo POST (LoginForm.mk "admin" "admin123") w0 in
  let '(r2, w2) := @add_movie demo POST (MovieForm.mk "Inception" "Dreams") w1 in
  let '(r3, w3) := manage_movies w2 in
  let '(r4, w4) := logout w3 in
  let '(r5, w5) := @login demo POST (LoginForm.mk "viewer" "viewer123") w4 in
  let '(r6, w6) := manage_movies w5 in
  length (users (tables_of w0)) = 2%nat ∧
  r1 = Return (redirect "/manage") ∧
  session w1 !! "role" = Some "admin" ∧
  r2 = Return (redirect "/manage") ∧
  r3 = Return (render_template "manage_movies.html"
                 [("movies", VMovies [Movie.mk 1 "Inception" "Dreams"])]) ∧
  r4 = Return (redirect "/") ∧
  session w4 !! "role" = None ∧
  r5 = Return (redirect "/view") ∧
  session w5 !! "role" = Some "viewer" ∧
  r6 = Return (redirect "/") ∧
  last (flashes w6) = Some ("Access denied.", "danger").
Proof. vm_compute. repeat split. Qed.

(** * What the handlers leave alone *)

Section Frame.
Context `{Collaborators}.

(** X3: no handler adds, changes or removes a user: whatever the request and the
    session, the user table after the request is the one before it. *)
Theorem users_never_change (r : Request) (w : World) :
  pending w = [] →
  users (tables_of (handle r w).2) = users (tables_of w).
Proof.
  intros Hp. destruct w as [s [t|] p f c o n];
    unfold tables_of; simpl in *; subst;
    destruct r; exec; done.
Qed.

(** X4: ratings are only ever appended, one at a time and only by /rate: every
    other handler, the deletion of a movie that ratings name included,
    leaves the rating table as it is. *)
Theorem ratings_only_grow (r : Request) (w : World) :
  pending w = [] →
  match r with
  | req_rate _ _ =>
      ∃ suffix, ratings (tables_of (handle r w).2)
                  = (ratings (tables_of w) ++ suffix)%list ∧
                (length suffix ≤ 1)%nat
  | _ => ratings (tables_of (handle r w).2) = ratings (tables_of w)
  end.
Proof.
  intros Hp. destruct w as [s [t|] p f c o n];
    unfold tables_of; simpl in *; subst;
    destruct r; exec; try done;
    first [ by (eexists; split; [reflexivity|]; simpl; lia)
          | by (exists []; rewrite app_nil_r; split; [done|simpl; lia]) ].
Qed.

(** X5: a request from a session whose role is not [admin] never changes the
    movie table, whichever route it goes to. *)
Theorem movies_change_only_for_admin (r : Request) (w : World) :
  pending w = [] →
  session w !! "role" ≠ Some "admin" →
  movies (tables_of (handle r w).2) = movies (tables_of w).
Proof.
  intros Hp Hrole. destruct w as [s [t|] p f c o n];
    unfold tables_of; simpl in *; subst;
    destruct r; run; rewrite ?(bool_decide_eq_true_2 _ Hrole);
    rewrite ?lookup_insert_eq; crunch; rewrite ?lookup_insert_eq; simpl;
    crunch; done.
Qed.

(** X6: on a ready store a handler raises only from the edit and delete
    routes, in an admin session, for an id no movie has: not-found for an id
    up to [max_id], [OverflowError] for one beyond; the world is then
    exactly as before the request. *)
Theorem handlers_raise_only_on_absent_id (r : Request) (t : Tables) (w : World)
    (e : Exn) :
  ready t w →
  (handle r w).1 = Raise e →
  (handle r w).2 = w ∧
  session w !! "role" = Some "admin" ∧
  ∃ id, (id ∉ Movie.id <$> movies t) ∧
        (r = get_delete_movie id ∨ ∃ method form, r = req_edit_movie id method form) ∧
        e = if bool_decide (id ≤ max_id) then NotFound else OverflowError.
Proof.
  intros (Hdb & Hp & Hwf). destruct w as [s d p f c o n]. simpl in *. subst.
  destruct r; exec; intros He; simplify_eq;
    (split; [done|]; split;
     [ match goal with
       | E : bool_decide (_ ≠ _) = false |- _ =>
           apply bool_decide_eq_false in E; by apply dec_stable in E
       end
     | eexists; split;
       [ match goal with
         | E : find_movie _ _ = None |- _ => apply find_movie_None in E; exact E
         end
       | split; [eauto|];
         match goal with
         | E : bool_decide (_ ≤ _) = _ |- _ => by rewrite E
         end ] ]).
Qed.

(** X7: the routes that build no form read the [role] entry of the session
    and nothing else of it: two sessions with the same [role] get the same
    response from them, and the same tables afterwards, whatever their
    [user] entry. *)
Theorem formless_routes_depend_on_role_only (r : Request) (w : World)
    (s' : gmap string string) :
  s' !! "role" = session w !! "role" →
  match r with
  | get_index | get_logout | get_manage | get_delete_movie _ | get_view =>
      (handle r (with_session s' w)).1 = (handle r w).1 ∧
      db (handle r (with_session s' w)).2 = db (handle r w).2
  | _ => True
  end.
Proof.
  intros Hs. destruct w as [s [t|] p f c o n]; simpl in *;
    destruct r; try exact I; run; rewrite ?Hs; crunch; done.
Qed.

(** X8: a GET request to any route but /logout and /delete_movie is safe: it
    changes neither the [user] and [role] entries of the session nor the
    tables, and stages nothing. *)
Theorem get_requests_are_safe (r : Request) (w : World) :
  match r with
  | get_index | req_login GET _ | req_rate GET _ | get_manage
  | req_add_movie GET _ | req_edit_movie _ GET _ | get_view =>
      session (handle r w).2 !! "user" = session w !! "user" ∧
      session (handle r w).2 !! "role" = session w !! "role" ∧
      db (handle r w).2 = db w ∧
      pending (handle r w).2 = pending w
  | _ => True
  end.
Proof.
  destruct w as [s [t|] p f c o n];
    destruct r as [|[]?| |[]?| |[]?|?[]?|?|]; try exact I; exec; done.
Qed.

End Frame.

(** * Movie management *)

Lemma find_movie_update_ne (i j : N) (ti de : string) (l : list Movie.t) :
  j ≠ i →
  find_movie j ((λ m, if bool_decide (Movie.id m = i) then Movie.mk i ti de else m) <$> l)
  = find_movie j l.
Proof.
  intros Hne. unfold find_movie. induction l as [|a l IH]; simpl; [done|].
  rewrite !filter_cons. case_bool_decide as Ha; simpl.
  - rewrite !decide_False by congruence. exact IH.
  - destruct (decide (Movie.id a = j)); simpl; [done|exact IH].
Qed.

Lemma find_movie_update_eq (i : N) (ti de : string) (l : list Movie.t) :
  i ∈ Movie.id <$> l →
  find_movie i ((λ m, if bool_decide (Movie.id m = i) then Movie.mk i ti de else m) <$> l)
  = Some (Movie.mk i ti de).
Proof.
  unfold find_movie. induction l as [|a l IH]; simpl.
  - intros Hin. by apply not_elem_of_nil in Hin.
  - intros Hin. rewrite filter_cons. case_bool_decide as Ha; simpl.
    + by rewrite decide_True.
    + rewrite decide_False by done.
      apply elem_of_cons in Hin as [Heq|Hin]; [congruence|auto].
Qed.

Lemma find_movie_filter_out (i : N) (l : list Movie.t) :
  find_movie i (filter (λ m, Movie.id m ≠ i) l) = None.
Proof.
  apply find_movie_None.
  intros (m & -> & [Hne _]%list_elem_of_filter)%list_elem_of_fmap. done.
Qed.

Lemma filter_out_fresh (l : list Movie.t) (ti de : string) :
  filter (λ m, Movie.id m ≠ fresh_id (Movie.id <$> l))
    (l ++ [Movie.mk (fresh_id (Movie.id <$> l)) ti de])%list = l.
Proof.
  rewrite filter_app, filter_cons, decide_False, filter_nil, app_nil_r
    by (intros Hc; by apply Hc).
  apply filter_all, Forall_forall. intros m Hm Heq.
  apply (fresh_id_fresh (Movie.id <$> l)). rewrite <- Heq.
  apply list_elem_of_fmap. eauto.
Qed.

Section Movies.
Context `{Collaborators}.

(** X9: in an admin session, a submission the movie form accepts stores exactly
    one new movie, under an id no stored movie has; looking that id up finds
    the new movie, and the management list that follows shows it last. *)
Theorem add_movie_appends_one (form : MovieForm.t) (t : Tables) (w : World) :
  ready t w →
  session w !! "role" = Some "admin" →
  MovieForm_validate form = true →
  ∃ (m : Movie.t) (w' : World),
    add_movie POST form w = (Return (redirect (url_for manage_movies_ep)), w') ∧
    db w' = Some (mkTables (users t) (movies t ++ [m]) (ratings t)) ∧
    (Movie.title m, Movie.description m)
      = (MovieForm.title form, MovieForm.description form) ∧
    (Movie.id m ∉ Movie.id <$> movies t) ∧
    find_movie (Movie.id m) (movies t ++ [m]) = Some m ∧
    manage_movies w'
      = (Return (render_template "manage_movies.html"
                   [("movies", VMovies (movies t ++ [m]))]), w') ∧
    session w' = session w ∧
    flashes w' = (flashes w ++ [("Movie added successfully!", "success")])%list.
Proof.
  intros (Hdb & Hp & Hu & Hm & Hr) Hrole Hv.
  destruct w as [s d p f c o n]. simpl in *. subst.
  exists (Movie.mk (fresh_id (Movie.id <$> movies t)) (MovieForm.title form)
            (MovieForm.description form)).
  eexists. run. rewrite Hrole, Hv. simpl.
  split; [reflexivity|]. simpl. split; [reflexivity|]. split; [reflexivity|].
  split; [apply fresh_id_fresh|]. split.
  - apply (find_movie_unique _
             (Movie.mk (fresh_id (Movie.id <$> movies t)) (MovieForm.title form)
                (MovieForm.description form))).
    + rewrite fmap_app. apply NoDup_snoc_fresh; [done|apply fresh_id_fresh].
    + apply elem_of_app. right. left.
  - rewrite Hrole. simpl. done.
Qed.

(** X10: in an admin session, an accepted edit of a stored movie rewrites the
    title and description of the row with that id and of no other: the ids
    and their order stay, every other id still finds the movie it found
    before, and opening the edit page again shows the submitted values. *)
Theorem edit_movie_updates_in_place (id : N) (form : MovieForm.t) (t : Tables)
    (w : World) :
  ready t w →
  session w !! "role" = Some "admin" →
  id ∈ Movie.id <$> movies t →
  MovieForm_validate form = true →
  ∃ (edited : list Movie.t) (w' : World),
    edit_movie id POST form w
      = (Return (redirect (url_for manage_movies_ep)), w') ∧
    db w' = Some (mkTables (users t) edited (ratings t)) ∧
    Movie.id <$> edited = Movie.id <$> movies t ∧
    find_movie id edited
      = Some (Movie.mk id (MovieForm.title form) (MovieForm.description form)) ∧
    (∀ j, j ≠ id → find_movie j edited = find_movie j (movies t)) ∧
    (∀ other : MovieForm.t,
       edit_movie id GET other w'
         = (Return (render_template "edit.html" [("form", VMovieForm form)]), w')) ∧
    session w' = session w.
Proof.
  intros (Hdb & Hp & Hu & Hm & Hr) Hrole Hin Hv.
  destruct w as [s d p f c o n]. simpl in *. subst.
  destruct (find_movie id (movies t)) as [m|] eqn:Hfind;
    [|by apply find_movie_None in Hfind].
  apply find_movie_Some in Hfind as Hmid. destruct Hmid as [Hmin Hmid].
  do 2 eexists. run. rewrite Hrole. simpl. rewrite Hfind. simpl.
  rewrite Hv. simpl.
  split; [reflexivity|]. simpl. split; [reflexivity|]. rewrite Hmid.
  split; [apply fmap_update_ids|]. split; [by apply find_movie_update_eq|].
  split; [intros j Hj; by apply find_movie_update_ne|]. split; [|done].
  intros other. rewrite Hrole. simpl.
  rewrite find_movie_update_eq by done. simpl. by destruct form.
Qed.

(** X11: adding a movie and then deleting the id it was given puts the tables
    back as they were. *)
Theorem add_then_delete_restores (form : MovieForm.t) (t : Tables) (w : World) :
  ready t w →
  session w !! "role" = Some "admin" →
  MovieForm_validate form = true →
  ∃ w1 w2,
    add_movie POST form w = (Return (redirect (url_for manage_movies_ep)), w1) ∧
    db w1 ≠ db w ∧
    delete_movie (fresh_id (Movie.id <$> movies t)) w1
      = (Return (redirect (url_for manage_movies_ep)), w2) ∧
    db w2 = db w.
Proof.
  intros (Hdb & Hp & Hu & Hm & Hr) Hrole Hv.
  destruct w as [s d p f c o n]. simpl in *. subst.
  do 2 eexists. run. rewrite Hrole, Hv. simpl.
  split; [reflexivity|]. simpl. split.
  { intros [= Heq]. apply (f_equal (λ x, length (movies x))) in Heq.
    simpl in Heq. rewrite length_app in Heq. simpl in Heq. lia. }
  rewrite Hrole. simpl.
  assert (find_movie (fresh_id (Movie.id <$> movies t))
            (movies t ++ [Movie.mk (fresh_id (Movie.id <$> movies t))
                            (MovieForm.title form) (MovieForm.description form)])
          = Some (Movie.mk (fresh_id (Movie.id <$> movies t))
                    (MovieForm.title form) (MovieForm.description form)))
    as Hnew.
  { apply (find_movie_unique _
             (Movie.mk (fresh_id (Movie.id <$> movies t)) (MovieForm.title form)
                (MovieForm.description form))).
    - rewrite fmap_app. apply NoDup_snoc_fresh; [done|apply fresh_id_fresh].
    - apply elem_of_app. right. left. }
  rewrite Hnew. simpl. split; [reflexivity|]. simpl.
  rewrite filter_out_fresh. by destruct t.
Qed.

(** X12: deleting is not repeatable: once a stored movie (its id, as every
    id SQLite holds, up to [max_id]) is deleted, deleting or editing the
    same id again raises not-found and changes nothing. *)
Theorem delete_twice_not_found (id : N) (t : Tables) (w : World) :
  ready t w →
  session w !! "role" = Some "admin" →
  id ∈ Movie.id <$> movies t →
  id ≤ max_id →
  ∃ w',
    delete_movie id w = (Return (redirect (url_for manage_movies_ep)), w') ∧
    delete_movie id w' = (Raise NotFound, w') ∧
    ∀ method form, edit_movie id method form w' = (Raise NotFound, w').
Proof.
  intros (Hdb & Hp & Hwf) Hrole Hin Hmax.
  destruct w as [s d p f c o n]. simpl in *. subst.
  destruct (find_movie id (movies t)) as [m|] eqn:Hfind;
    [|by apply find_movie_None in Hfind].
  apply find_movie_Some in Hfind as Hmid. destruct Hmid as [_ Hmid].
  eexists. run. rewrite Hrole. simpl. rewrite Hfind. simpl.
  split; [reflexivity|].
  rewrite Hmid. simpl. rewrite Hrole. simpl.
  rewrite find_movie_filter_out. simpl.
  rewrite bool_decide_eq_true_2 by done. done.
Qed.


End Movies.

(** * Sessions across requests *)

Section Sessions.
Context `{Collaborators}.

(** What a guarded route does, by the role in the session: the access-denied
    outcome when it differs from the required role, and otherwise a response
    that is not the redirect home. *)
Lemma guarded_route_outcome (r : Request) (q : string) (w : World) :
  required_role r = Some q →
  (session w !! "role" ≠ Some q → handle r w = access_denied w) ∧
  (session w !! "role" = Some q →
     (handle r w).1 ≠ Return (redirect (url_for index_ep))).
Proof.
  intros Hq. destruct w as [s [t|] p f c o n];
    destruct r; simplify_eq/=; (split; intros Hrole); run;
    first [ by rewrite (bool_decide_eq_true_2 _ Hrole)
          | rewrite Hrole; simpl; crunch; done ].
Qed.

(** X14: after a login that succeeds, the guarded routes follow the stored role
    of the user who logged in: a route is denied when that role differs from
    the one it requires, and is not turned away when they agree. *)
Theorem login_then_guarded_routes (method : Method) (form : LoginForm.t)
    (t : Tables) (w : World) (u : User.t) (r : Request) (q : string) :
  ready t w →
  validate_on_submit method (LoginForm_validate form) = true →
  u ∈ users t →
  User.username u = LoginForm.username form →
  check_password_hash (User.password u) (LoginForm.password form) = true →
  required_role r = Some q →
  (User.role u ≠ q →
     handle r (login method form w).2 = access_denied (login method form w).2) ∧
  (User.role u = q →
     (handle r (login method form w).2).1 ≠ Return (redirect (url_for index_ep))).
Proof.
  intros (Hdb & _ & Hu & _) Hv Hin Hname Hpw Hq.
  rewrite (login_submitted method form t w Hv Hdb).
  rewrite <- Hname, (find_user_unique _ _ Hu Hin), Hpw. simpl.
  destruct (guarded_route_outcome r q
              (with_flashes (flashes w ++ [("Login successful!", "success")])
                 (with_session (logged_in u (session w)) w)) Hq)
    as [Hdenied Hallowed].
  assert (logged_in u (session w) !! "role" = Some (User.role u)) as Hrole
    by (unfold logged_in; by simplify_map_eq).
  split; intros Hcmp.
  - apply Hdenied. simpl. rewrite Hrole. congruence.
  - apply Hallowed. simpl. rewrite Hrole. congruence.
Qed.

(** X15: a stored user whose role is neither [viewer] nor [admin] can log in, but
    is sent nowhere: name and role are written to the session, the success
    message is flashed, and the login page is rendered again. *)
Theorem login_with_other_role_stays (method : Method) (form : LoginForm.t)
    (t : Tables) (w : World) (u : User.t) :
  ready t w →
  validate_on_submit method (LoginForm_validate form) = true →
  u ∈ users t →
  User.username u = LoginForm.username form →
  check_password_hash (User.password u) (LoginForm.password form) = true →
  User.role u ≠ "viewer" →
  User.role u ≠ "admin" →
  ∃ w',
    login method form w
      = (Return (render_template "login.html"
                   [("form", VLoginForm form); ("title", VStr "Login")]), w') ∧
    session w' !! "user" = Some (User.username u) ∧
    session w' !! "role" = Some (User.role u) ∧
    flashes w' = (flashes w ++ [("Login successful!", "success")])%list.
Proof.
  intros (Hdb & _ & Hu & _) Hv Hin Hname Hpw Hnv Hna.
  rewrite (login_submitted method form t w Hv Hdb).
  rewrite <- Hname, (find_user_unique _ _ Hu Hin), Hpw.
  eexists. unfold login_target.
  rewrite !bool_decide_eq_false_2 by done.
  split; [reflexivity|]. simpl. unfold logged_in.
  repeat split; by simplify_map_eq.
Qed.

(** X16: after logout every guarded route is denied, whatever the session held
    before. *)
Theorem logout_then_denied (r : Request) (q : string) (w : World) :
  required_role r = Some q →
  handle r (logout w).2 = access_denied (logout w).2.
Proof.
  intros Hq. apply (guarded_route_outcome r q _ Hq).
  run. by simplify_map_eq.
Qed.

(** X17: a request never drops a flashed message and flashes at most one. *)
Theorem at_most_one_flash (r : Request) (w : World) :
  ∃ suffix,
    flashes (handle r w).2 = (flashes w ++ suffix)%list ∧
    (length suffix ≤ 1)%nat.
Proof.
  destruct w as [s [t|] p f c o n]; destruct r; exec;
    first [ by (eexists; split; [reflexivity|]; simpl; lia)
          | by (exists []; rewrite app_nil_r; split; [done|simpl; lia]) ].
Qed.

(** X18: start-up touches the user table and nothing else of the store or the
    session, and it adds users all or nothing: none, or the two accounts
    after the users already stored.  This holds when the commit raises too. *)
Theorem bootstrap_frame (w : World) :
  pending w = [] →
  session (bootstrap w).2 = session w ∧
  flashes (bootstrap w).2 = flashes w ∧
  movies (tables_of (bootstrap w).2) = movies (tables_of w) ∧
  ratings (tables_of (bootstrap w).2) = ratings (tables_of w) ∧
  pending (bootstrap w).2 = [] ∧
  ∃ suffix,
    users (tables_of (bootstrap w).2) = (users (tables_of w) ++ suffix)%list ∧
    (suffix = [] ∨ length suffix = 2%nat).
Proof.
  intros Hp. destruct w as [s d p f c o n]. unfold tables_of. simpl in *. subst.
  assert (∀ t, let w' := (bootstrap (mkWorld s (Some t) [] f c o n)).2 in
            session w' = s ∧ flashes w' = f ∧
            movies (default empty_tables (db w')) = movies t ∧
            ratings (default empty_tables (db w')) = ratings t ∧
            pending w' = [] ∧
            ∃ suffix,
              users (default empty_tables (db w')) = (users t ++ suffix)%list ∧
              (suffix = [] ∨ length suffix = 2%nat)) as Hsome.
  { intros t. autounfold with app_unfold. cbn -[flush].
    destruct (find_user "admin" (users t)) as [u|] eqn:Hfind; cbn -[flush].
    - repeat split. exists []. rewrite app_nil_r. auto.
    - destruct (flush _ _ _) as [t'|] eqn:Hflush; cbn -[flush].
      + apply flush_two_users in Hflush as ->. simpl.
        repeat split. eexists. split; [reflexivity|]. by right.
      + repeat split. exists []. rewrite app_nil_r. auto. }
  destruct d as [t|]; [apply Hsome|apply (Hsome empty_tables)].
Qed.

End Sessions.

(** * Concrete runs of the properties above *)

Lemma handle_preserves_ready_witness :
  ready two_movies (stocked_world admin_session) ∧
  ∃ t', ready t' (@handle demo (get_delete_movie 2) (stocked_world admin_session)).2.
Proof.
  assert (ready two_movies (stocked_world admin_session)) as Hready
    by ready_by_computation.
  split; [exact Hready|].
  exact (@handle_preserves_ready demo (get_delete_movie 2) two_movies
           (stocked_world admin_session) Hready).
Defined.

Lemma bootstrap_ready_witness :
  pending blank_world = [] ∧
  wf_tables (tables_of blank_world) ∧
  @bootstrap demo blank_world = (Return (), seeded_world) ∧
  ready (tables_of seeded_world) seeded_world ∧
  ("admin" ∈ User.username <$> users (tables_of seeded_world)) ∧
  @main_block demo seeded_world = (Return (), seeded_world).
Proof.
  assert (wf_tables (tables_of blank_world)) as Hwf
    by (repeat split; apply NoDup_nil_2).
  assert (@bootstrap demo blank_world = (Return (), seeded_world)) as Hrun
    by by_computation.
  split; [reflexivity|]. split; [exact Hwf|]. split; [exact Hrun|].
  exact (@bootstrap_ready demo blank_world seeded_world eq_refl Hwf Hrun).
Defined.

Lemma users_never_change_witness :
  pending (stocked_world admin_session) = [] ∧
  users (tables_of (@handle demo (req_add_movie POST (MovieForm.mk "Up" "Balloons"))
                      (stocked_world admin_session)).2)
    = users (tables_of (stocked_world admin_session)).
Proof.
  split; [reflexivity|].
  exact (@users_never_change demo (req_add_movie POST (MovieForm.mk "Up" "Balloons"))
           (stocked_world admin_session) eq_refl).
Defined.

Lemma ratings_only_grow_witness :
  pending (stocked_world ∅) = [] ∧
  (∃ suffix,
     ratings (tables_of (@handle demo (req_rate POST (RateForm.mk "zed" "Heat" 3 "ok"))
                           (stocked_world ∅)).2)
       = (ratings (tables_of (stocked_world ∅)) ++ suffix)%list ∧
     (length suffix ≤ 1)%nat) ∧
  ratings (tables_of (@handle demo (get_delete_movie 2)
                        (stocked_world admin_session)).2)
    = ratings (tables_of (stocked_world admin_session)).
Proof.
  split; [reflexivity|]. split.
  - exact (@ratings_only_grow demo (req_rate POST (RateForm.mk "zed" "Heat" 3 "ok"))
             (stocked_world ∅) eq_refl).
  - exact (@ratings_only_grow demo (get_delete_movie 2)
             (stocked_world admin_session) eq_refl).
Defined.

Lemma movies_change_only_for_admin_witness :
  pending (stocked_world viewer_session) = [] ∧
  session (stocked_world viewer_session) !! "role" ≠ Some "admin" ∧
  movies (tables_of (@handle demo (get_delete_movie 2)
                       (stocked_world viewer_session)).2)
    = movies (tables_of (stocked_world viewer_session)).
Proof.
  assert (session (stocked_world viewer_session) !! "role" ≠ Some "admin") as Hne
    by by_computation.
  split; [reflexivity|]. split; [exact Hne|].
  exact (@movies_change_only_for_admin demo (get_delete_movie 2)
           (stocked_world viewer_session) eq_refl Hne).
Defined.

Lemma handlers_raise_only_on_absent_id_witness :
  ready two_movies (stocked_world admin_session) ∧
  (@handle demo (get_delete_movie 7) (stocked_world admin_session)).1
    = Raise NotFound ∧
  (@handle demo (get_delete_movie 7) (stocked_world admin_session)).2
    = stocked_world admin_session.
Proof.
  assert (ready two_movies (stocked_world admin_session)) as Hready
    by ready_by_computation.
  assert ((@handle demo (get_delete_movie 7) (stocked_world admin_session)).1
          = Raise NotFound) as Hraise by by_computation.
  split; [exact Hready|]. split; [exact Hraise|].
  exact (proj1
    (@handlers_raise_only_on_absent_id demo (get_delete_movie 7) two_movies
       (stocked_world admin_session) NotFound Hready Hraise)).
Defined.

Lemma formless_routes_depend_on_role_only_witness :
  ({["role" := "admin"]} : gmap string string) !! "role"
    = session (stocked_world admin_session) !! "role" ∧
  (@handle demo get_manage
     (with_session {["role" := "admin"]} (stocked_world admin_session))).1
    = (@handle demo get_manage (stocked_world admin_session)).1.
Proof.
  assert (({["role" := "admin"]} : gmap string string) !! "role"
          = session (stocked_world admin_session) !! "role") as Hs
    by by_computation.
  split; [exact Hs|].
  exact (proj1 (@formless_routes_depend_on_role_only demo get_manage
                  (stocked_world admin_session) {["role" := "admin"]} Hs)).
Defined.

Lemma add_movie_appends_one_witness :
  ready two_movies (stocked_world admin_session) ∧
  ∃ (m : Movie.t) (w' : World),
    @add_movie demo POST (MovieForm.mk "Up" "Balloons") (stocked_world admin_session)
      = (Return (redirect (url_for manage_movies_ep)), w') ∧
    db w' = Some (mkTables (users two_movies) (movies two_movies ++ [m])
                    (ratings two_movies)) ∧
    find_movie (Movie.id m) (movies two_movies ++ [m]) = Some m.
Proof.
  assert (ready two_movies (stocked_world admin_session)) as Hready
    by ready_by_computation.
  split; [exact Hready|].
  destruct (@add_movie_appends_one demo (MovieForm.mk "Up" "Balloons") two_movies
              (stocked_world admin_session) Hready)
    as (m & w' & Hrun & Hdb & _ & _ & Hfind & _).
  - by_computation.
  - by_computation.
  - exists m, w'. repeat split; [exact Hrun|exact Hdb|exact Hfind].
Defined.

Lemma edit_movie_updates_in_place_witness :
  ready two_movies (stocked_world admin_session) ∧
  ∃ (edited : list Movie.t) (w' : World),
    @edit_movie demo 2 POST (MovieForm.mk "Heat II" "Sequel")
       (stocked_world admin_session)
      = (Return (redirect (url_for manage_movies_ep)), w') ∧
    find_movie 2 edited = Some (Movie.mk 2 "Heat II" "Sequel") ∧
    find_movie 1 edited = find_movie 1 (movies two_movies) ∧
    @edit_movie demo 2 GET (MovieForm.mk "" "") w'
      = (Return (render_template "edit.html"
                   [("form", VMovieForm (MovieForm.mk "Heat II" "Sequel"))]), w').
Proof.
  assert (ready two_movies (stocked_world admin_session)) as Hready
    by ready_by_computation.
  split; [exact Hready|].
  destruct (@edit_movie_updates_in_place demo 2 (MovieForm.mk "Heat II" "Sequel")
              two_movies (stocked_world admin_session) Hready)
    as (edited & w' & Hrun & _ & _ & Hfind & Hother & Hget & _).
  - by_computation.
  - apply (bool_decide_unpack _). by_computation.
  - by_computation.
  - exists edited, w'. repeat split; [exact Hrun|exact Hfind| |apply Hget].
    apply Hother. discriminate.
Defined.

Lemma add_then_delete_restores_witness :
  ready two_movies (stocked_world admin_session) ∧
  ∃ w1 w2,
    @add_movie demo POST (MovieForm.mk "Up" "Balloons") (stocked_world admin_session)
      = (Return (redirect (url_for manage_movies_ep)), w1) ∧
    delete_movie 3 w1 = (Return (redirect (url_for manage_movies_ep)), w2) ∧
    db w2 = db (stocked_world admin_session).
Proof.
  assert (ready two_movies (stocked_world admin_session)) as Hready
    by ready_by_computation.
  split; [exact Hready|].
  destruct (@add_then_delete_restores demo (MovieForm.mk "Up" "Balloons") two_movies
              (stocked_world admin_session) Hready)
    as (w1 & w2 & Hadd & _ & Hdel & Hdb).
  - by_computation.
  - by_computation.
  - exists w1, w2. repeat split; [exact Hadd|exact Hdel|exact Hdb].
Defined.

Lemma delete_twice_not_found_witness :
  ready two_movies (stocked_world admin_session) ∧
  ∃ w',
    delete_movie 2 (stocked_world admin_session)
      = (Return (redirect (url_for manage_movies_ep)), w') ∧
    delete_movie 2 w' = (Raise NotFound, w').
Proof.
  assert (ready two_movies (stocked_world admin_session)) as Hready
    by ready_by_computation.
  split; [exact Hready|].
  destruct (@delete_twice_not_found demo 2 two_movies
              (stocked_world admin_session) Hready)
    as (w' & Hfirst & Hsecond & _).
  - by_computation.
  - apply (bool_decide_unpack _). by_computation.
  - by_computation.
  - exists w'. split; [exact Hfirst|exact Hsecond].
Defined.


Lemma login_then_guarded_routes_witness :
  ready seeded_tables seeded_world ∧
  @handle demo get_manage
     (@login demo POST (LoginForm.mk "viewer" "viewer123") seeded_world).2
    = access_denied
        (@login demo POST (LoginForm.mk "viewer" "viewer123") seeded_world).2 ∧
  (@handle demo get_view
     (@login demo POST (LoginForm.mk "viewer" "viewer123") seeded_world).2).1
    ≠ Return (redirect (url_for index_ep)).
Proof.
  assert (ready seeded_tables seeded_world) as Hready by ready_by_computation.
  assert (User.mk "viewer" (demo_hash 1 "viewer123") "viewer" ∈ users seeded_tables)
    as Hin by (right; left).
  split; [exact Hready|]. split.
  - apply (proj1 (@login_then_guarded_routes demo POST
                    (LoginForm.mk "viewer" "viewer123") seeded_tables seeded_world
                    (User.mk "viewer" (demo_hash 1 "viewer123") "viewer")
                    get_manage "admin" Hready eq_refl Hin eq_refl eq_refl eq_refl)).
    discriminate.
  - apply (proj2 (@login_then_guarded_routes demo POST
                    (LoginForm.mk "viewer" "viewer123") seeded_tables seeded_world
                    (User.mk "viewer" (demo_hash 1 "viewer123") "viewer")
                    get_view "viewer" Hready eq_refl Hin eq_refl eq_refl eq_refl)).
    reflexivity.
Defined.

Lemma login_with_other_role_stays_witness :
  ready guest_tables guest_world ∧
  ∃ w',
    @login demo POST (LoginForm.mk "guest" "guest123") guest_world
      = (Return (render_template "login.html"
                   [("form", VLoginForm (LoginForm.mk "guest" "guest123"));
                    ("title", VStr "Login")]), w') ∧
    session w' !! "role" = Some "guest".
Proof.
  assert (ready guest_tables guest_world) as Hready by ready_by_computation.
  split; [exact Hready|].
  destruct (@login_with_other_role_stays demo POST (LoginForm.mk "guest" "guest123")
              guest_tables guest_world
              (User.mk "guest" (demo_hash 2 "guest123") "guest") Hready)
    as (w' & Hrun & _ & Hrole & _).
  - by_computation.
  - right. right. left.
  - reflexivity.
  - by_computation.
  - discriminate.
  - discriminate.
  - exists w'. split; [exact Hrun|exact Hrole].
Defined.

Lemma logout_then_denied_witness :
  required_role get_manage = Some "admin" ∧
  @handle demo get_manage (logout (stocked_world admin_session)).2
    = access_denied (logout (stocked_world admin_session)).2.
Proof.
  split; [reflexivity|].
  exact (@logout_then_denied demo get_manage "admin"
           (stocked_world admin_session) eq_refl).
Defined.

Lemma bootstrap_frame_witness :
  pending viewer_only_world = [] ∧
  (@bootstrap demo viewer_only_world).1 = Raise IntegrityError ∧
  movies (tables_of (@bootstrap demo viewer_only_world).2)
    = movies (tables_of viewer_only_world) ∧
  pending (@bootstrap demo viewer_only_world).2 = [].
Proof.
  split; [reflexivity|]. split; [by_computation|].
  destruct (@bootstrap_frame demo viewer_only_world eq_refl)
    as (_ & _ & Hmovies & _ & Hpending & _).
  split; [exact Hmovies|exact Hpending].
Defined.
